(** * Dataset endpoints of the REST API: a shallow embedding

    Source: [airflow/api_connexion/endpoints/dataset_endpoint.py].

    The four view functions [delete_dataset], [get_dataset], [get_datasets]
    and [get_dataset_events] are written over a small model of the ORM
    session: the session holds the two tables and records every statement
    that is sent to the database, the view functions run in a state and
    error monad over it.  Python integers are [Z], strings are [string],
    an optional keyword argument is an [option]. *)

From Stdlib Require Import ZArith List Bool Ascii String Lia.
From Stdlib Require Import Permutation Sorted.
Import ListNotations.

Local Open Scope string_scope.
Local Open Scope list_scope.
Local Open Scope Z_scope.

(* ------------------------------------------------------------------ *)
(** ** Python truth values *)

Module Py.

(** [if x:] for [x : int | None]. *)
Definition truthy_int (x : option Z) : bool :=
  match x with
  | None => false
  | Some z => negb (z =? 0)
  end.

(** [if x:] for [x : str | None]. *)
Definition truthy_str (x : option string) : bool :=
  match x with
  | None => false
  | Some s => negb (String.eqb s "")
  end.

(** [if xs:] for a list. *)
Definition truthy_list {A : Type} (xs : list A) : bool :=
  match xs with
  | [] => false
  | _ :: _ => true
  end.

End Py.

(* ------------------------------------------------------------------ *)
(** ** SQL values, LIKE and ORDER BY *)

Module Sql.

Inductive value : Type :=
| Null
| Int (z : Z)
| Str (s : string).

(** Order of the values of one column; NULL sorts first. *)
Definition value_leb (a b : value) : bool :=
  match a, b with
  | Null, _ => true
  | _, Null => false
  | Int x, Int y => x <=? y
  | Int _, Str _ => true
  | Str _, Int _ => false
  | Str x, Str y => String.leb x y
  end.

Inductive direction : Type := Asc | Desc.

Definition lower_ascii (c : ascii) : ascii :=
  let n := nat_of_ascii c in
  if (Nat.leb 65 n && Nat.leb n 90)%bool then ascii_of_nat (n + 32) else c.

Definition lower (s : list ascii) : list ascii := map lower_ascii s.

Definition percent : ascii := "%"%char.
Definition underscore : ascii := "_"%char.
Definition backslash : ascii := "\"%char.

(** [s LIKE p]: [%] stands for any run of characters, [_] for any one
    character, every other character for itself (no ESCAPE clause). *)
Fixpoint like (p : list ascii) : list ascii -> bool :=
  match p with
  | [] => fun s => match s with [] => true | _ :: _ => false end
  | c :: p' =>
      if Ascii.eqb c percent then
        fix star (s : list ascii) : bool :=
          (like p' s || match s with [] => false | _ :: s' => star s' end)%bool
      else if Ascii.eqb c underscore then
        fun s => match s with [] => false | _ :: s' => like p' s' end
      else
        fun s => match s with
                 | [] => false
                 | x :: s' => (Ascii.eqb c x && like p' s')%bool
                 end
  end.

(** [col.ilike(p)]: [lower(col) LIKE lower(p)]. *)
Definition ilike (s p : string) : bool :=
  like (lower (list_ascii_of_string p)) (lower (list_ascii_of_string s)).

(** Stable insertion sort, the model of ORDER BY. *)
Fixpoint insert_by {A : Type} (le : A -> A -> bool) (x : A) (l : list A) : list A :=
  match l with
  | [] => [x]
  | y :: l' => if le x y then x :: l else y :: insert_by le x l'
  end.

Definition sort_by {A : Type} (le : A -> A -> bool) (l : list A) : list A :=
  fold_right (insert_by le) [] l.

Definition row_leb {A : Type} (key : A -> value) (d : direction) (a b : A) : bool :=
  match d with
  | Asc => value_leb (key a) (key b)
  | Desc => value_leb (key b) (key a)
  end.

End Sql.

(* ------------------------------------------------------------------ *)
(** ** The two tables *)

Module DatasetModel.

Record t : Type := mk {
  id : Z;
  uri : string;
  created_at : Z;
  updated_at : Z;
  consuming_dags : list string;               (* dag_id of each reference *)
  producing_tasks : list (string * string)    (* (dag_id, task_id) *)
}.

Definition column (name : string) (d : t) : Sql.value :=
  if String.eqb name "id" then Sql.Int (id d)
  else if String.eqb name "uri" then Sql.Str (uri d)
  else if String.eqb name "created_at" then Sql.Int (created_at d)
  else if String.eqb name "updated_at" then Sql.Int (updated_at d)
  else Sql.Null.

(** The criteria the endpoints put in a WHERE clause. *)
Inductive criterion : Type :=
| UriEq (u : string)            (* DatasetModel.uri == u *)
| UriIlike (pattern : string).  (* DatasetModel.uri.ilike(pattern) *)

Definition holds (c : criterion) (d : t) : bool :=
  match c with
  | UriEq u => String.eqb (uri d) u
  | UriIlike p => Sql.ilike (uri d) p
  end.

End DatasetModel.

Module DatasetEvent.

Record t : Type := mk {
  id : Z;
  dataset_id : Z;
  source_dag_id : option string;
  source_task_id : option string;
  source_run_id : option string;
  source_map_index : option Z;
  timestamp : Z;
  created_dagruns : list string
}.

Definition str_value (x : option string) : Sql.value :=
  match x with None => Sql.Null | Some s => Sql.Str s end.

Definition int_value (x : option Z) : Sql.value :=
  match x with None => Sql.Null | Some z => Sql.Int z end.

Definition column (name : string) (e : t) : Sql.value :=
  if String.eqb name "source_dag_id" then str_value (source_dag_id e)
  else if String.eqb name "source_task_id" then str_value (source_task_id e)
  else if String.eqb name "source_run_id" then str_value (source_run_id e)
  else if String.eqb name "source_map_index" then int_value (source_map_index e)
  else if String.eqb name "timestamp" then Sql.Int (timestamp e)
  else Sql.Null.

Inductive criterion : Type :=
| DatasetIdEq (v : Z)
| SourceDagIdEq (v : string)
| SourceTaskIdEq (v : string)
| SourceRunIdEq (v : string)
| SourceMapIndexEq (v : Z).

(** [col = v] on a nullable column: NULL equals nothing. *)
Definition str_eq (x : option string) (v : string) : bool :=
  match x with None => false | Some s => String.eqb s v end.

Definition int_eq (x : option Z) (v : Z) : bool :=
  match x with None => false | Some z => z =? v end.

Definition holds (c : criterion) (e : t) : bool :=
  match c with
  | DatasetIdEq v => dataset_id e =? v
  | SourceDagIdEq v => str_eq (source_dag_id e) v
  | SourceTaskIdEq v => str_eq (source_task_id e) v
  | SourceRunIdEq v => str_eq (source_run_id e) v
  | SourceMapIndexEq v => int_eq (source_map_index e) v
  end.

End DatasetEvent.

(* ------------------------------------------------------------------ *)
(** ** Errors and results *)

Inductive ApiError : Type :=
| NotFound (title detail : string)
| Conflict (detail : string)
| InvalidSortField
| InvalidParameter
| StoreFailure.

Inductive result (A : Type) : Type :=
| Ok (a : A)
| Raise (e : ApiError).

Arguments Ok {A} a.
Arguments Raise {A} e.

(* ------------------------------------------------------------------ *)
(** ** Select statements *)

Inductive loader : Type :=
| joinedload (relationship : string)
| subqueryload (relationship : string).

Record select (C : Type) : Type := mkSelect {
  whereclause : list C;
  order_by_clause : option (string * Sql.direction);
  offset_clause : option Z;
  limit_clause : option Z;
  loaders : list loader
}.

Arguments mkSelect {C}.
Arguments whereclause {C}.
Arguments order_by_clause {C}.
Arguments offset_clause {C}.
Arguments limit_clause {C}.
Arguments loaders {C}.

Section Builder.
Context {C : Type}.

(** [select(Entity)] *)
Definition select_all : select C := mkSelect [] None None None [].

(** [query.where(c)] *)
Definition where_ (q : select C) (c : C) : select C :=
  mkSelect (whereclause q ++ [c]) (order_by_clause q) (offset_clause q)
           (limit_clause q) (loaders q).

(** [query.order_by(text("<column> asc|desc"))] *)
Definition order_by_ (q : select C) (column : string) (d : Sql.direction) : select C :=
  mkSelect (whereclause q) (Some (column, d)) (offset_clause q)
           (limit_clause q) (loaders q).

(** [query.offset(n)] *)
Definition offset_ (q : select C) (n : Z) : select C :=
  mkSelect (whereclause q) (order_by_clause q) (Some n) (limit_clause q) (loaders q).

(** [query.limit(n)] *)
Definition limit_ (q : select C) (n : Z) : select C :=
  mkSelect (whereclause q) (order_by_clause q) (offset_clause q) (Some n) (loaders q).

(** [query.options(...)] *)
Definition options (q : select C) (ls : list loader) : select C :=
  mkSelect (whereclause q) (order_by_clause q) (offset_clause q)
           (limit_clause q) (loaders q ++ ls).
End Builder.

(** What the database answers to a select statement: WHERE, then ORDER BY,
    then OFFSET, then LIMIT, whatever the order in which the clauses were
    attached.  A negative OFFSET or LIMIT is an error of the database. *)
Section Evaluation.
Context {C Row : Type}.
Variable holds : C -> Row -> bool.
Variable column : string -> Row -> Sql.value.

Definition satisfies (criteria : list C) (r : Row) : bool :=
  forallb (fun c => holds c r) criteria.

Definition ordered (o : option (string * Sql.direction)) (rows : list Row) : list Row :=
  match o with
  | None => rows
  | Some (name, d) => Sql.sort_by (Sql.row_leb (column name) d) rows
  end.

Definition skipped (o : option Z) (rows : list Row) : result (list Row) :=
  match o with
  | None => Ok rows
  | Some n => if n <? 0 then Raise StoreFailure else Ok (skipn (Z.to_nat n) rows)
  end.

Definition limited (o : option Z) (rows : list Row) : result (list Row) :=
  match o with
  | None => Ok rows
  | Some n => if n <? 0 then Raise StoreFailure else Ok (firstn (Z.to_nat n) rows)
  end.

Definition fetch (table : list Row) (q : select C) : result (list Row) :=
  let rows := ordered (order_by_clause q) (filter (satisfies (whereclause q)) table) in
  match skipped (offset_clause q) rows with
  | Raise e => Raise e
  | Ok rows' => limited (limit_clause q) rows'
  end.

Definition count (table : list Row) (criteria : list C) : Z :=
  Z.of_nat (List.length (filter (satisfies criteria) table)).
End Evaluation.

(* ------------------------------------------------------------------ *)
(** ** The session *)

Inductive statement : Type :=
| SelectDataset (q : select DatasetModel.criterion)
| CountDataset (criteria : list DatasetModel.criterion)
| SelectDatasetEvent (q : select DatasetEvent.criterion)
| CountDatasetEvent (criteria : list DatasetEvent.criterion)
| DeleteDataset (id : Z).

Record Session : Type := mkSession {
  datasets : list DatasetModel.t;
  dataset_events : list DatasetEvent.t;
  executed : list statement      (* the statements sent so far, oldest first *)
}.

Definition M (A : Type) : Type := Session -> result A * Session.

Definition ret {A : Type} (a : A) : M A := fun s => (Ok a, s).

Definition raise {A : Type} (e : ApiError) : M A := fun s => (Raise e, s).

Definition bind {A B : Type} (m : M A) (k : A -> M B) : M B :=
  fun s =>
    match m s with
    | (Ok a, s') => k a s'
    | (Raise e, s') => (Raise e, s')
    end.

Notation "x <- m ;; k" := (bind m (fun x => k))
  (at level 61, m at next level, right associativity).
Notation "m ;;; k" := (bind m (fun _ => k))
  (at level 61, right associativity).

Definition lift {A : Type} (r : result A) : M A := fun s => (r, s).

Definition record (st : statement) (s : Session) : Session :=
  mkSession (datasets s) (dataset_events s) (executed s ++ [st]).

(** [session.scalars(query).all()] on the dataset table *)
Definition scalars_datasets (q : select DatasetModel.criterion) : M (list DatasetModel.t) :=
  fun s => (fetch DatasetModel.holds DatasetModel.column (datasets s) q,
            record (SelectDataset q) s).

(** [session.scalar(query)]: the first row, or [None] *)
Definition scalar_dataset (q : select DatasetModel.criterion) : M (option DatasetModel.t) :=
  rows <- scalars_datasets q ;; ret (hd_error rows).

(** [session.scalars(select(func.count(DatasetModel.id))).one()] *)
Definition count_dataset_ids : M Z :=
  fun s => (Ok (count DatasetModel.holds (datasets s) []),
            record (CountDataset []) s).

(** [session.scalars(query).all()] on the event table *)
Definition scalars_events (q : select DatasetEvent.criterion) : M (list DatasetEvent.t) :=
  fun s => (fetch DatasetEvent.holds DatasetEvent.column (dataset_events s) q,
            record (SelectDatasetEvent q) s).

(** [session.delete(dataset)]: the row with that primary key goes. *)
Definition session_delete (d : DatasetModel.t) : M unit :=
  fun s =>
    (Ok tt,
     mkSession
       (filter (fun x => negb (DatasetModel.id x =? DatasetModel.id d)) (datasets s))
       (dataset_events s)
       (executed s ++ [DeleteDataset (DatasetModel.id d)])).

(* ------------------------------------------------------------------ *)
(** ** [airflow.api_connexion.parameters] and [airflow.utils.db] *)

(** Modelled from the spec: [check_limit] is imported from
    [airflow.api_connexion.parameters], which is not among the sources.
    The limit is upper-bounded by a configured maximum, and a limit that
    exceeds the maximum is an [InvalidParameter]. *)
Definition check_limit (maximum_page_limit value : Z) : result Z :=
  if maximum_page_limit <? value then Raise InvalidParameter else Ok value.

(** Modelled from the spec: the decorator [format_parameters] is imported
    from [airflow.api_connexion.parameters], which is not among the sources.
    [@format_parameters({"limit": check_limit})] passes the limit through
    the check before the view function runs. *)
Definition format_parameters {A : Type} (check : Z -> result Z) (view : Z -> M A) : Z -> M A :=
  fun limit => limit' <- lift (check limit) ;; view limit'.

(** The field token of [order_by]: a leading [-] selects the descending
    order. *)
Definition sort_token (order_by : string) : string * Sql.direction :=
  match order_by with
  | String "-"%char field => (field, Sql.Desc)
  | _ => (order_by, Sql.Asc)
  end.

(** Modelled from the spec: [apply_sorting] is imported from
    [airflow.api_connexion.parameters], which is not among the sources.
    The requested field is resolved against the allow-list of the entity:
    a field outside it is an [InvalidSortField], a field inside it becomes
    the ordering clause of the query.  Both callers pass the empty
    replacement table, which is left out. *)
Definition apply_sorting {C : Type} (query : select C) (order_by : string)
    (allowed_attrs : list string) : result (select C) :=
  let (field, d) := sort_token order_by in
  if existsb (String.eqb field) allowed_attrs
  then Ok (order_by_ query field d)
  else Raise InvalidSortField.

(** Modelled from the spec: [get_query_count] is imported from
    [airflow.utils.db], which is not among the sources.  It counts the root
    rows that satisfy the filter predicates of the query, whatever its
    loaders, in a statement of its own. *)
Definition get_query_count (query : select DatasetEvent.criterion) : M Z :=
  fun s => (Ok (count DatasetEvent.holds (dataset_events s) (whereclause query)),
            record (CountDatasetEvent (whereclause query)) s).

(* ------------------------------------------------------------------ *)
(** ** The view functions *)

Module DatasetCollection.
Record t : Type := mk {
  datasets : list DatasetModel.t;
  total_entries : Z
}.
End DatasetCollection.

Module DatasetEventCollection.
Record t : Type := mk {
  dataset_events : list DatasetEvent.t;
  total_entries : Z
}.
End DatasetEventCollection.

Inductive NoContentType : Type := NoContent.

Definition NO_CONTENT : Z := 204.

Definition not_found (uri : string) : ApiError :=
  NotFound "Dataset not found"
           (String.append "The Dataset with uri: `" (String.append uri "` was not found")).

(** An optional keyword argument that was left out takes its default. *)
Definition default {A : Type} (d : A) (x : option A) : A :=
  match x with
  | None => d
  | Some a => a
  end.

(** [if cond: query = query.where(c)] *)
Definition where_if {C : Type} (cond : bool) (q : select C) (c : C) : select C :=
  if cond then where_ q c else q.

Definition delete_dataset (uri : string) : M (NoContentType * Z) :=
  dataset <- scalar_dataset (where_ select_all (DatasetModel.UriEq uri)) ;;
  match dataset with
  | None => raise (not_found uri)
  | Some dataset =>
      if (Py.truthy_list (DatasetModel.consuming_dags dataset)
          || Py.truthy_list (DatasetModel.producing_tasks dataset))%bool
      then raise (Conflict "Dataset is still referenced by other DAG")
      else session_delete dataset ;;; ret (NoContent, NO_CONTENT)
  end.

Definition get_dataset (uri : string) : M DatasetModel.t :=
  dataset <- scalar_dataset
               (options (where_ select_all (DatasetModel.UriEq uri))
                        [joinedload "consuming_dags"; joinedload "producing_tasks"]) ;;
  match dataset with
  | None => raise (not_found uri)
  | Some dataset => ret dataset
  end.

Definition dataset_allowed_attrs : list string :=
  ["id"; "uri"; "created_at"; "updated_at"].

(** The body of [get_datasets], under its decorators. *)
Definition get_datasets_view (offset : option Z) (uri_pattern : option string)
    (order_by : option string) (limit : Z) : M DatasetCollection.t :=
  let offset := default 0 offset in
  let order_by := default "id" order_by in
  let allowed_attrs := dataset_allowed_attrs in
  total_entries <- count_dataset_ids ;;
  let query := select_all in
  let query :=
    where_if (Py.truthy_str uri_pattern) query
      (DatasetModel.UriIlike
         (String.append "%" (String.append (default "" uri_pattern) "%"))) in
  query <- lift (apply_sorting query order_by allowed_attrs) ;;
  datasets <- scalars_datasets
                (limit_
                   (offset_
                      (options query [subqueryload "consuming_dags";
                                      subqueryload "producing_tasks"])
                      offset)
                   limit) ;;
  ret (DatasetCollection.mk datasets total_entries).

Definition get_datasets (maximum_page_limit : Z) (limit : Z) (offset : option Z)
    (uri_pattern : option string) (order_by : option string) : M DatasetCollection.t :=
  format_parameters (check_limit maximum_page_limit)
    (get_datasets_view offset uri_pattern order_by) limit.

Definition event_allowed_attrs : list string :=
  ["source_dag_id"; "source_task_id"; "source_run_id"; "source_map_index"; "timestamp"].

(** The WHERE clause of [get_dataset_events]: one criterion for each filter
    whose value is true in the sense of Python. *)
Definition event_query (dataset_id : option Z)
    (source_dag_id source_task_id source_run_id : option string)
    (source_map_index : option Z) : select DatasetEvent.criterion :=
  let query := select_all in
  let query := where_if (Py.truthy_int dataset_id) query
                 (DatasetEvent.DatasetIdEq (default 0 dataset_id)) in
  let query := where_if (Py.truthy_str source_dag_id) query
                 (DatasetEvent.SourceDagIdEq (default "" source_dag_id)) in
  let query := where_if (Py.truthy_str source_task_id) query
                 (DatasetEvent.SourceTaskIdEq (default "" source_task_id)) in
  let query := where_if (Py.truthy_str source_run_id) query
                 (DatasetEvent.SourceRunIdEq (default "" source_run_id)) in
  let query := where_if (Py.truthy_int source_map_index) query
                 (DatasetEvent.SourceMapIndexEq (default 0 source_map_index)) in
  options query [subqueryload "created_dagruns"].

(** The body of [get_dataset_events], under its decorators. *)
Definition get_dataset_events_view (offset : option Z) (order_by : option string)
    (dataset_id : option Z)
    (source_dag_id source_task_id source_run_id : option string)
    (source_map_index : option Z) (limit : Z) : M DatasetEventCollection.t :=
  let offset := default 0 offset in
  let order_by := default "timestamp" order_by in
  let allowed_attrs := event_allowed_attrs in
  let query := event_query dataset_id source_dag_id source_task_id source_run_id
                 source_map_index in
  total_entries <- get_query_count query ;;
  query <- lift (apply_sorting query order_by allowed_attrs) ;;
  events <- scalars_events (limit_ (offset_ query offset) limit) ;;
  ret (DatasetEventCollection.mk events total_entries).

Definition get_dataset_events (maximum_page_limit : Z) (limit : Z) (offset : option Z)
    (order_by : option string) (dataset_id : option Z)
    (source_dag_id source_task_id source_run_id : option string)
    (source_map_index : option Z) : M DatasetEventCollection.t :=
  format_parameters (check_limit maximum_page_limit)
    (get_dataset_events_view offset order_by dataset_id source_dag_id source_task_id
       source_run_id source_map_index) limit.

(* ------------------------------------------------------------------ *)
(** ** Notions of the specification *)

(** The rows that [DatasetModel.uri == u] selects. *)
Definition by_uri (u : string) (d : DatasetModel.t) : bool :=
  satisfies DatasetModel.holds [DatasetModel.UriEq u] d.

(** [uri] is a unique key of the dataset table. *)
Definition uri_unique (s : Session) : Prop :=
  NoDup (map DatasetModel.uri (datasets s)).

(** A dataset that a DAG consumes or a task produces. *)
Definition referenced (d : DatasetModel.t) : Prop :=
  DatasetModel.consuming_dags d <> [] \/ DatasetModel.producing_tasks d <> [].

Definition conflict_detail : string := "Dataset is still referenced by other DAG".

Fixpoint prefix_of (p s : list ascii) : bool :=
  match p, s with
  | [], _ => true
  | _ :: _, [] => false
  | c :: p', x :: s' => (Ascii.eqb c x && prefix_of p' s')%bool
  end.

(** [p] occurs in [s] as a run of consecutive characters. *)
Fixpoint occurs_in (p s : list ascii) : bool :=
  (prefix_of p s || match s with [] => false | _ :: s' => occurs_in p s' end)%bool.

(** [s] contains [pattern], ignoring case. *)
Definition contains_ci (pattern s : string) : bool :=
  occurs_in (Sql.lower (list_ascii_of_string pattern))
            (Sql.lower (list_ascii_of_string s)).

(** A character that LIKE reads as itself on every database: neither of
    the two wildcards, nor the backslash that some databases take as the
    escape character. *)
Definition literal_char (c : ascii) : bool :=
  negb (Ascii.eqb c Sql.percent || Ascii.eqb c Sql.underscore
        || Ascii.eqb c Sql.backslash)%bool.

Definition literal_pattern (pattern : string) : bool :=
  forallb literal_char (list_ascii_of_string pattern).

(** A filter on a column: a value that is left out, or false in the sense
    of Python, filters nothing; any other value must equal the column. *)
Definition int_filter (f : option Z) (field : option Z) : bool :=
  match f with
  | None => true
  | Some v => if v =? 0 then true else
                match field with Some x => x =? v | None => false end
  end.

Definition str_filter (f : option string) (field : option string) : bool :=
  match f with
  | None => true
  | Some v => if String.eqb v "" then true else
                match field with Some x => String.eqb x v | None => false end
  end.

Definition event_matches (dataset_id : option Z)
    (source_dag_id source_task_id source_run_id : option string)
    (source_map_index : option Z) (e : DatasetEvent.t) : bool :=
  (int_filter dataset_id (Some (DatasetEvent.dataset_id e))
   && str_filter source_dag_id (DatasetEvent.source_dag_id e)
   && str_filter source_task_id (DatasetEvent.source_task_id e)
   && str_filter source_run_id (DatasetEvent.source_run_id e)
   && int_filter source_map_index (DatasetEvent.source_map_index e))%bool.

(** The statement of [get_datasets] before it is ordered and paginated. *)
Definition dataset_query (uri_pattern : option string) : select DatasetModel.criterion :=
  where_if (Py.truthy_str uri_pattern) select_all
    (DatasetModel.UriIlike
       (String.append "%" (String.append (default "" uri_pattern) "%"))).

(** The row statement of a list endpoint: ordered, then paginated. *)
Definition row_query {C : Type} (query : select C) (order_by : string)
    (ls : list loader) (offset limit : Z) : select C :=
  limit_ (offset_ (options (order_by_ query (fst (sort_token order_by))
                                      (snd (sort_token order_by))) ls) offset) limit.

Definition dataset_loaders : list loader :=
  [subqueryload "consuming_dags"; subqueryload "producing_tasks"].

(** [le] is a total relation. *)
Definition total {A : Type} (le : A -> A -> bool) : Prop :=
  forall a b, le a b = true \/ le b a = true.

(** The field of [order_by] is in the allow-list. *)
Definition sortable (allowed_attrs : list string) (order_by : string) : bool :=
  existsb (String.eqb (fst (sort_token order_by))) allowed_attrs.

(** The page of [rows] that starts at [offset] and holds [limit] rows. *)
Definition page {A : Type} (offset limit : Z) (rows : list A) : list A :=
  firstn (Z.to_nat limit) (skipn (Z.to_nat offset) rows).

(** The ordering that [order_by] asks for. *)
Definition order_of (order_by : string) : option (string * Sql.direction) :=
  Some (sort_token order_by).

(** Sample rows. *)
Definition ds1 : DatasetModel.t := DatasetModel.mk 1 "ds1" 10 20 [] [].
Definition ds2 : DatasetModel.t := DatasetModel.mk 2 "ds2" 11 15 ["consumer"] [].
Definition ds3 : DatasetModel.t := DatasetModel.mk 3 "ds3" 12 14 [] [("producer", "task")].
Definition bucket : DatasetModel.t := DatasetModel.mk 4 "s3://Bucket/Key" 13 13 [] [].
Definition abc : DatasetModel.t := DatasetModel.mk 5 "abc" 14 18 [] [].

Definition ev1 : DatasetEvent.t :=
  DatasetEvent.mk 1 1 (Some "dag") (Some "task") (Some "run") (Some 0) 100 [].
Definition ev2 : DatasetEvent.t :=
  DatasetEvent.mk 2 1 (Some "dag") (Some "task") (Some "run") (Some 1) 90 [].
Definition ev3 : DatasetEvent.t :=
  DatasetEvent.mk 3 2 (Some "other") (Some "task") None None 95 [].

Definition catalog : Session :=
  mkSession [ds1; ds2; ds3; bucket; abc] [ev1; ev2; ev3] [].

(** [id] is the primary key of the dataset table. *)
Definition id_unique (s : Session) : Prop :=
  NoDup (map DatasetModel.id (datasets s)).

(** A statement that writes. *)
Definition is_delete (st : statement) : bool :=
  match st with
  | DeleteDataset _ => true
  | _ => false
  end.

(** The session [s'] has the tables of [s] and some more statements, none
    of them a delete. *)
Definition only_read (s s' : Session) : Prop :=
  datasets s' = datasets s
  /\ dataset_events s' = dataset_events s
  /\ exists new, executed s' = executed s ++ new
                 /\ forallb (fun st => negb (is_delete st)) new = true.

(** The test of line 67, on a dataset. *)
Definition guard (d : DatasetModel.t) : bool :=
  (Py.truthy_list (DatasetModel.consuming_dags d)
   || Py.truthy_list (DatasetModel.producing_tasks d))%bool.

(** The rows that stay when [session.delete(d)] is flushed. *)
Definition without (d : DatasetModel.t) (rows : list DatasetModel.t) : list DatasetModel.t :=
  filter (fun x => negb (DatasetModel.id x =? DatasetModel.id d)) rows.

(** The datasets that the row statement of [get_datasets] ranges over. *)
Definition dataset_selected (uri_pattern : option string) (d : DatasetModel.t) : bool :=
  satisfies DatasetModel.holds (whereclause (dataset_query uri_pattern)) d.

(** [a] may come before [b] in the order that [order_by] asks for. *)
Definition in_order {Row : Type} (column : string -> Row -> Sql.value)
    (order_by : string) (a b : Row) : Prop :=
  Sql.row_leb (column (fst (sort_token order_by))) (snd (sort_token order_by)) a b = true.

(** No two of the rows tie in the column of [order_by]: its values are
    pairwise distinct, and none is a string (how two strings compare is the
    collation of the database, under which distinct strings may tie). *)
Definition distinct_sort_keys {Row : Type} (column : string -> Row -> Sql.value)
    (order_by : string) (rows : list Row) : Prop :=
  NoDup (map (column (fst (sort_token order_by))) rows)
  /\ forall r t, In r rows -> column (fst (sort_token order_by)) r <> Sql.Str t.

Definition by_id_asc (a b : DatasetModel.t) : Prop :=
  DatasetModel.id a <= DatasetModel.id b.

Definition by_id_desc (a b : DatasetModel.t) : Prop :=
  DatasetModel.id b <= DatasetModel.id a.

Definition by_timestamp_asc (a b : DatasetEvent.t) : Prop :=
  DatasetEvent.timestamp a <= DatasetEvent.timestamp b.

Definition by_timestamp_desc (a b : DatasetEvent.t) : Prop :=
  DatasetEvent.timestamp b <= DatasetEvent.timestamp a.

(* ------------------------------------------------------------------ *)
(** ** Looking a dataset up by its uri *)

Lemma by_uri_true (u : string) (d : DatasetModel.t) :
  by_uri u d = true <-> DatasetModel.uri d = u.
Proof.
  unfold by_uri, satisfies; simpl.
  rewrite andb_true_r. apply String.eqb_eq.
Qed.

Lemma by_uri_false (u : string) (d : DatasetModel.t) :
  by_uri u d = false <-> DatasetModel.uri d <> u.
Proof.
  unfold by_uri, satisfies; simpl.
  rewrite andb_true_r. apply String.eqb_neq.
Qed.

Lemma lookup_present (l : list DatasetModel.t) (d : DatasetModel.t) :
  NoDup (map DatasetModel.uri l) -> In d l ->
  hd_error (filter (by_uri (DatasetModel.uri d)) l) = Some d.
Proof.
  induction l as [|x l IH]; intros Hnd Hin; [contradiction|].
  inversion Hnd as [|u us Hnotin Hnd']; subst.
  simpl. destruct Hin as [->|Hin].
  - replace (by_uri (DatasetModel.uri d) d) with true; [reflexivity|].
    symmetry. now apply by_uri_true.
  - destruct (by_uri (DatasetModel.uri d) x) eqn:E.
    + apply by_uri_true in E. exfalso. apply Hnotin.
      rewrite E. now apply in_map.
    + now apply IH.
Qed.

Lemma lookup_absent (l : list DatasetModel.t) (u : string) :
  (forall d, In d l -> DatasetModel.uri d <> u) ->
  filter (by_uri u) l = [].
Proof.
  induction l as [|x l IH]; intros H; [reflexivity|].
  simpl. replace (by_uri u x) with false.
  - apply IH. intros d Hd. apply H. now right.
  - symmetry. apply by_uri_false. apply H. now left.
Qed.

Lemma lookup_after_delete (l : list DatasetModel.t) (d : DatasetModel.t) :
  NoDup (map DatasetModel.uri l) -> In d l ->
  filter (by_uri (DatasetModel.uri d))
         (filter (fun x => negb (DatasetModel.id x =? DatasetModel.id d)) l) = [].
Proof.
  intros Hnd Hin. apply lookup_absent.
  intros x Hx Heq. apply filter_In in Hx. destruct Hx as [Hx Hid].
  assert (Hsome : hd_error (filter (by_uri (DatasetModel.uri d)) l) = Some x).
  { rewrite <- Heq. now apply lookup_present. }
  rewrite (lookup_present l d Hnd Hin) in Hsome.
  injection Hsome as <-. rewrite Z.eqb_refl in Hid. discriminate.
Qed.

Lemma truthy_list_false {A : Type} (xs : list A) :
  Py.truthy_list xs = false <-> xs = [].
Proof. destruct xs; simpl; split; congruence. Qed.

Lemma guard_blocks (d : DatasetModel.t) :
  referenced d <->
  (Py.truthy_list (DatasetModel.consuming_dags d)
   || Py.truthy_list (DatasetModel.producing_tasks d))%bool = true.
Proof.
  unfold referenced. rewrite orb_true_iff.
  destruct (DatasetModel.consuming_dags d), (DatasetModel.producing_tasks d);
    simpl; split; intros [H|H]; try congruence; auto; try (left; congruence);
    right; congruence.
Qed.

(** What the two lookups do, row found or not. *)
Lemma delete_dataset_unfold (u : string) (s : Session) :
  delete_dataset u s =
  let s1 := record (SelectDataset (where_ select_all (DatasetModel.UriEq u))) s in
  match hd_error (filter (by_uri u) (datasets s)) with
  | None => (Raise (not_found u), s1)
  | Some d =>
      if (Py.truthy_list (DatasetModel.consuming_dags d)
          || Py.truthy_list (DatasetModel.producing_tasks d))%bool
      then (Raise (Conflict conflict_detail), s1)
      else (Ok (NoContent, NO_CONTENT), snd (session_delete d s1))
  end.
Proof.
  unfold delete_dataset, bind, scalar_dataset, bind, scalars_datasets, fetch, ret, raise.
  unfold by_uri. simpl.
  destruct (hd_error (filter _ (datasets s))) as [d|]; [|reflexivity].
  destruct (Py.truthy_list (DatasetModel.consuming_dags d)
            || Py.truthy_list (DatasetModel.producing_tasks d))%bool; reflexivity.
Qed.

Lemma get_dataset_unfold (u : string) (s : Session) :
  get_dataset u s =
  let s1 := record (SelectDataset
                      (options (where_ select_all (DatasetModel.UriEq u))
                         [joinedload "consuming_dags"; joinedload "producing_tasks"])) s in
  match hd_error (filter (by_uri u) (datasets s)) with
  | None => (Raise (not_found u), s1)
  | Some d => (Ok d, s1)
  end.
Proof.
  unfold get_dataset, bind, scalar_dataset, bind, scalars_datasets, fetch, ret, raise.
  unfold by_uri. simpl.
  destruct (hd_error (filter _ (datasets s))) as [d|]; reflexivity.
Qed.

(* ------------------------------------------------------------------ *)
(** ** Deleting a dataset *)

(** C1.  A dataset of the table that a DAG consumes or a task produces
    cannot be deleted: [delete_dataset] on its uri raises [Conflict], the
    only statement sent is the lookup (no delete), the table is as before,
    and [get_dataset] on the same uri still returns the dataset. *)
Theorem delete_referenced_dataset_conflict (s : Session) (d : DatasetModel.t) :
  uri_unique s -> In d (datasets s) -> referenced d ->
  let u := DatasetModel.uri d in
  let s' := snd (delete_dataset u s) in
  fst (delete_dataset u s) = Raise (Conflict conflict_detail)
  /\ datasets s' = datasets s
  /\ dataset_events s' = dataset_events s
  /\ executed s' = executed s ++ [SelectDataset (where_ select_all (DatasetModel.UriEq u))]
  /\ fst (get_dataset u s') = Ok d
  /\ fst (get_dataset u s) = Ok d.
Proof.
  intros Hu Hin Href u s'. subst s'.
  rewrite delete_dataset_unfold, !get_dataset_unfold. cbv zeta.
  unfold u. rewrite (lookup_present _ _ Hu Hin).
  apply guard_blocks in Href. rewrite Href. simpl.
  rewrite (lookup_present _ _ Hu Hin). simpl. repeat split; reflexivity.
Qed.

Lemma delete_referenced_dataset_conflict_witness :
  fst (delete_dataset "ds2" catalog) = Raise (Conflict conflict_detail)
  /\ fst (get_dataset "ds2" (snd (delete_dataset "ds2" catalog))) = Ok ds2.
Proof.
  assert (Hu : uri_unique catalog).
  { unfold uri_unique; simpl. repeat constructor; simpl; intuition discriminate. }
  assert (Hin : In ds2 (datasets catalog)) by (simpl; auto).
  assert (Href : referenced ds2) by (left; discriminate).
  destruct (delete_referenced_dataset_conflict catalog ds2 Hu Hin Href)
    as (H1 & _ & _ & _ & H2 & _).
  split; [exact H1 | exact H2].
Defined.

(** C5.  A dataset of the table with no consuming DAG and no producing
    task is deleted: [delete_dataset] answers 204, its row is gone, and
    [get_dataset] on the same uri then raises [NotFound].  On a uri that no
    dataset has, [delete_dataset] and [get_dataset] both raise [NotFound],
    with the uri in the detail. *)
Theorem delete_unreferenced_dataset (s : Session) :
  uri_unique s ->
  (forall d, In d (datasets s) ->
     DatasetModel.consuming_dags d = [] -> DatasetModel.producing_tasks d = [] ->
     let u := DatasetModel.uri d in
     let s' := snd (delete_dataset u s) in
     fst (delete_dataset u s) = Ok (NoContent, 204)
     /\ datasets s' =
        filter (fun x => negb (DatasetModel.id x =? DatasetModel.id d)) (datasets s)
     /\ ~ In d (datasets s')
     /\ (forall x, In x (datasets s') -> DatasetModel.uri x <> u)
     /\ fst (get_dataset u s')
        = Raise (NotFound "Dataset not found"
                   (String.append "The Dataset with uri: `"
                      (String.append u "` was not found"))))
  /\ (forall u, (forall d, In d (datasets s) -> DatasetModel.uri d <> u) ->
     fst (delete_dataset u s)
     = Raise (NotFound "Dataset not found"
                (String.append "The Dataset with uri: `"
                   (String.append u "` was not found")))
     /\ datasets (snd (delete_dataset u s)) = datasets s
     /\ fst (get_dataset u s)
        = Raise (NotFound "Dataset not found"
                   (String.append "The Dataset with uri: `"
                      (String.append u "` was not found")))).
Proof.
  intros Hu. split.
  - intros d Hin Hc Hp u s'. subst s'.
    rewrite delete_dataset_unfold, get_dataset_unfold. cbv zeta.
    unfold u. rewrite (lookup_present _ _ Hu Hin).
    rewrite Hc, Hp. simpl.
    pose proof (lookup_after_delete _ _ Hu Hin) as Hgone.
    rewrite Hgone. simpl. repeat split.
    + intros Hd. apply filter_In in Hd. destruct Hd as [_ Hd].
      rewrite Z.eqb_refl in Hd. discriminate.
    + intros x Hx Heq.
      assert (Hx' : In x (filter (by_uri (DatasetModel.uri d))
                (filter (fun y => negb (DatasetModel.id y =? DatasetModel.id d))
                        (datasets s)))).
      { apply filter_In. split; [exact Hx | now apply by_uri_true]. }
      rewrite Hgone in Hx'. contradiction.
  - intros u Hno.
    rewrite delete_dataset_unfold, get_dataset_unfold. cbv zeta.
    rewrite (lookup_absent _ _ Hno). simpl. repeat split.
Qed.

Lemma delete_unreferenced_dataset_witness :
  fst (delete_dataset "ds1" catalog) = Ok (NoContent, 204)
  /\ fst (get_dataset "ds1" (snd (delete_dataset "ds1" catalog)))
     = Raise (NotFound "Dataset not found" "The Dataset with uri: `ds1` was not found")
  /\ fst (delete_dataset "ds9" catalog)
     = Raise (NotFound "Dataset not found" "The Dataset with uri: `ds9` was not found")
  /\ fst (get_dataset "ds9" catalog)
     = Raise (NotFound "Dataset not found" "The Dataset with uri: `ds9` was not found").
Proof.
  assert (Hu : uri_unique catalog).
  { unfold uri_unique; simpl. repeat constructor; simpl; intuition discriminate. }
  destruct (delete_unreferenced_dataset catalog Hu) as [Hdel Hmiss].
  assert (Hin : In ds1 (datasets catalog)) by (simpl; auto).
  destruct (Hdel ds1 Hin eq_refl eq_refl) as (H1 & _ & _ & _ & H2).
  assert (Hno : forall d, In d (datasets catalog) -> DatasetModel.uri d <> "ds9").
  { simpl. intros d [<-|[<-|[<-|[<-|[<-|[]]]]]]; discriminate. }
  destruct (Hmiss "ds9" Hno) as (H3 & _ & H4).
  repeat split; assumption.
Defined.

(** C9, as the code has it.  A [Conflict] raised by [delete_dataset] always
    carries the one fixed detail, and it is raised because the dataset with
    that uri is referenced, by consuming DAGs or by producing tasks. *)
Theorem conflict_detail_fixed (u : string) (s : Session) (detail : string) :
  fst (delete_dataset u s) = Raise (Conflict detail) ->
  detail = conflict_detail
  /\ exists d, In d (datasets s) /\ DatasetModel.uri d = u /\ referenced d.
Proof.
  rewrite delete_dataset_unfold. cbv zeta.
  destruct (hd_error (filter (by_uri u) (datasets s))) as [d|] eqn:Hd.
  - destruct (Py.truthy_list (DatasetModel.consuming_dags d)
              || Py.truthy_list (DatasetModel.producing_tasks d))%bool eqn:Hg;
      simpl; intros H; [|discriminate].
    injection H as <-. split; [reflexivity|].
    exists d.
    assert (Hin : In d (filter (by_uri u) (datasets s))).
    { destruct (filter (by_uri u) (datasets s)); simpl in Hd; [discriminate|].
      injection Hd as ->. now left. }
    apply filter_In in Hin. destruct Hin as [Hin Hu].
    repeat split; [exact Hin | now apply by_uri_true | now apply guard_blocks].
  - simpl. unfold not_found. discriminate.
Qed.

Lemma conflict_detail_fixed_witness :
  fst (delete_dataset "ds3" catalog)
  = Raise (Conflict "Dataset is still referenced by other DAG")
  /\ exists d, In d (datasets catalog) /\ DatasetModel.uri d = "ds3" /\ referenced d.
Proof.
  split; [reflexivity|].
  apply (conflict_detail_fixed "ds3" catalog conflict_detail). reflexivity.
Defined.

(** C9, as the specification words it, fails: [ds3] is referenced by a producing
    task only and [ds2] by a consuming DAG only, and both deletions raise
    the same detail, which speaks of a DAG and not of a task. *)
Lemma conflict_detail_names_no_kind :
  DatasetModel.consuming_dags ds3 = []
  /\ DatasetModel.producing_tasks ds3 <> []
  /\ DatasetModel.producing_tasks ds2 = []
  /\ DatasetModel.consuming_dags ds2 <> []
  /\ fst (delete_dataset "ds3" catalog) = fst (delete_dataset "ds2" catalog)
  /\ fst (delete_dataset "ds3" catalog)
     = Raise (Conflict "Dataset is still referenced by other DAG")
  /\ contains_ci "task" "Dataset is still referenced by other DAG" = false.
Proof.
  repeat split; try reflexivity; discriminate.
Qed.

(* ------------------------------------------------------------------ *)
(** ** Filters of the event list *)

(** C4.  In [get_dataset_events] a filter whose value is false in the sense
    of Python ([0] for [dataset_id] and [source_map_index], the empty
    string for the three string filters) gives exactly what leaving the
    filter out gives: the same result and the same statements. *)
Theorem falsy_filter_is_no_filter (maximum_page_limit limit : Z) (offset : option Z)
    (order_by : option string) (dataset_id : option Z)
    (source_dag_id source_task_id source_run_id : option string)
    (source_map_index : option Z) (s : Session) :
  get_dataset_events maximum_page_limit limit offset order_by dataset_id
      source_dag_id source_task_id source_run_id (Some 0) s
  = get_dataset_events maximum_page_limit limit offset order_by dataset_id
      source_dag_id source_task_id source_run_id None s
  /\ get_dataset_events maximum_page_limit limit offset order_by (Some 0)
      source_dag_id source_task_id source_run_id source_map_index s
  = get_dataset_events maximum_page_limit limit offset order_by None
      source_dag_id source_task_id source_run_id source_map_index s
  /\ get_dataset_events maximum_page_limit limit offset order_by dataset_id
      (Some "") source_task_id source_run_id source_map_index s
  = get_dataset_events maximum_page_limit limit offset order_by dataset_id
      None source_task_id source_run_id source_map_index s
  /\ get_dataset_events maximum_page_limit limit offset order_by dataset_id
      source_dag_id (Some "") source_run_id source_map_index s
  = get_dataset_events maximum_page_limit limit offset order_by dataset_id
      source_dag_id None source_run_id source_map_index s
  /\ get_dataset_events maximum_page_limit limit offset order_by dataset_id
      source_dag_id source_task_id (Some "") source_map_index s
  = get_dataset_events maximum_page_limit limit offset order_by dataset_id
      source_dag_id source_task_id None source_map_index s.
Proof.
  unfold get_dataset_events, get_dataset_events_view, event_query.
  repeat split; reflexivity.
Qed.

(* ------------------------------------------------------------------ *)
(** ** LIKE on patterns without special characters *)

Lemma like_percent (p s : list ascii) :
  Sql.like (Sql.percent :: p) s
  = (Sql.like p s
     || match s with [] => false | _ :: s' => Sql.like (Sql.percent :: p) s' end)%bool.
Proof. destruct s; reflexivity. Qed.

Lemma like_literal (c : ascii) (p s : list ascii) :
  literal_char c = true ->
  Sql.like (c :: p) s
  = match s with [] => false | x :: s' => (Ascii.eqb c x && Sql.like p s')%bool end.
Proof.
  unfold literal_char. rewrite negb_true_iff, !orb_false_iff.
  intros [[Hp Hu] _]. simpl. rewrite Hp, Hu. reflexivity.
Qed.

Lemma like_trailing_percent (s : list ascii) : Sql.like [Sql.percent] s = true.
Proof.
  induction s as [|x s IH]; [reflexivity|].
  rewrite like_percent, IH. apply orb_true_r.
Qed.

Lemma like_literal_prefix (p s : list ascii) :
  forallb literal_char p = true ->
  Sql.like (p ++ [Sql.percent]) s = prefix_of p s.
Proof.
  revert s. induction p as [|c p IH]; intros s Hp.
  - simpl app. rewrite like_trailing_percent. reflexivity.
  - simpl in Hp. apply andb_true_iff in Hp. destruct Hp as [Hc Hp].
    change ((c :: p) ++ [Sql.percent]) with (c :: (p ++ [Sql.percent])).
    rewrite (like_literal _ _ _ Hc).
    destruct s as [|x s]; [reflexivity|]. simpl. now rewrite IH.
Qed.

Lemma like_literal_infix (p s : list ascii) :
  forallb literal_char p = true ->
  Sql.like (Sql.percent :: p ++ [Sql.percent]) s = occurs_in p s.
Proof.
  intros Hp. induction s as [|x s IH].
  - rewrite like_percent, (like_literal_prefix _ _ Hp). destruct p; reflexivity.
  - rewrite like_percent, (like_literal_prefix _ _ Hp), IH.
    destruct p; reflexivity.
Qed.

Lemma lower_literal (c : ascii) :
  literal_char c = true -> literal_char (Sql.lower_ascii c) = true.
Proof.
  destruct c as [[] [] [] [] [] [] [] []]; vm_compute; intros H; exact H || reflexivity.
Qed.

Lemma lower_literal_pattern (p : list ascii) :
  forallb literal_char p = true -> forallb literal_char (Sql.lower p) = true.
Proof.
  induction p as [|c p IH]; simpl; [reflexivity|].
  rewrite !andb_true_iff. intros [Hc Hp].
  split; [now apply lower_literal | now apply IH].
Qed.

Lemma list_ascii_of_append (a b : string) :
  list_ascii_of_string (String.append a b)
  = list_ascii_of_string a ++ list_ascii_of_string b.
Proof. induction a as [|c a IH]; simpl; [reflexivity | now rewrite IH]. Qed.

(** On a pattern without special characters, [uri ILIKE %pattern%] is
    containment ignoring case. *)
Lemma ilike_literal_contains (u pattern : string) :
  literal_pattern pattern = true ->
  Sql.ilike u (String.append "%" (String.append pattern "%")) = contains_ci pattern u.
Proof.
  intros Hp. unfold Sql.ilike, contains_ci.
  rewrite !list_ascii_of_append. simpl list_ascii_of_string.
  unfold Sql.lower. simpl map. rewrite map_app. simpl map.
  change (Sql.lower_ascii "%") with Sql.percent.
  apply like_literal_infix. now apply lower_literal_pattern.
Qed.

Lemma prefix_of_spec (p s : list ascii) :
  prefix_of p s = true <-> exists post, s = p ++ post.
Proof.
  revert s. induction p as [|c p IH]; intros s; simpl.
  - split; [intros _; now exists s | reflexivity].
  - destruct s as [|x s].
    + split; [discriminate | intros [post H]; discriminate].
    + rewrite andb_true_iff, Ascii.eqb_eq, IH. split.
      * intros [-> [post ->]]. now exists post.
      * intros [post H]. injection H as -> ->. split; [reflexivity | now exists post].
Qed.

Lemma occurs_in_spec (p s : list ascii) :
  occurs_in p s = true <-> exists pre post, s = pre ++ p ++ post.
Proof.
  induction s as [|x s IH].
  - simpl. rewrite orb_false_r, prefix_of_spec. split.
    + intros [post H]. now exists [], post.
    + intros [pre [post H]]. destruct pre; [now exists post | discriminate].
  - change (occurs_in p (x :: s))
      with (prefix_of p (x :: s) || occurs_in p s)%bool.
    rewrite orb_true_iff, prefix_of_spec, IH. split.
    + intros [[post H]|[pre [post H]]].
      * now exists [], post.
      * exists (x :: pre), post. simpl. now rewrite H.
    + intros [pre [post H]]. destruct pre as [|y pre].
      * left. now exists post.
      * right. injection H as -> ->. now exists pre, post.
Qed.

(** [contains_ci] says what it should: some run of [s] equals the pattern
    up to the case of its letters. *)
Lemma contains_ci_spec (pattern s : string) :
  contains_ci pattern s = true <->
  exists pre mid post,
    list_ascii_of_string s = pre ++ mid ++ post
    /\ Sql.lower mid = Sql.lower (list_ascii_of_string pattern).
Proof.
  unfold contains_ci. rewrite occurs_in_spec. unfold Sql.lower. split.
  - intros [pre [post H]].
    apply map_eq_app in H. destruct H as (pre' & rest & Hs & Hpre & Hrest).
    apply map_eq_app in Hrest. destruct Hrest as (mid & post' & Hr & Hmid & Hpost).
    exists pre', mid, post'. subst rest. split; assumption.
  - intros (pre & mid & post & Hs & Hmid).
    exists (map Sql.lower_ascii pre), (map Sql.lower_ascii post).
    rewrite Hs, !map_app, Hmid. reflexivity.
Qed.

(* ------------------------------------------------------------------ *)
(** ** ORDER BY *)

Section Sorting.
Context {A : Type}.
Variable le : A -> A -> bool.

Lemma insert_by_perm (x : A) (l : list A) :
  Permutation (x :: l) (Sql.insert_by le x l).
Proof.
  induction l as [|y l IH]; simpl; [reflexivity|].
  destruct (le x y); [reflexivity|].
  rewrite perm_swap. now apply perm_skip.
Qed.

Lemma sort_by_perm (l : list A) : Permutation l (Sql.sort_by le l).
Proof.
  induction l as [|x l IH]; simpl; [reflexivity|].
  rewrite <- insert_by_perm. now apply perm_skip.
Qed.

Hypothesis le_total : total le.

Lemma insert_by_hdrel (x y : A) (l : list A) :
  le y x = true -> HdRel (fun a b => le a b = true) y l ->
  HdRel (fun a b => le a b = true) y (Sql.insert_by le x l).
Proof.
  intros Hyx Hl. destruct l as [|z l]; simpl.
  - now constructor.
  - destruct (le x z); constructor; [exact Hyx | now inversion Hl].
Qed.

Lemma insert_by_sorted (x : A) (l : list A) :
  Sorted (fun a b => le a b = true) l ->
  Sorted (fun a b => le a b = true) (Sql.insert_by le x l).
Proof.
  induction 1 as [|y l Hs IH Hhd]; simpl.
  - repeat constructor.
  - destruct (le x y) eqn:E.
    + constructor; [now constructor | now constructor].
    + constructor; [exact IH|].
      apply insert_by_hdrel; [|exact Hhd].
      destruct (le_total x y) as [H|H]; [congruence | exact H].
Qed.

Lemma sort_by_sorted (l : list A) :
  Sorted (fun a b => le a b = true) (Sql.sort_by le l).
Proof.
  induction l as [|x l IH]; simpl; [constructor | now apply insert_by_sorted].
Qed.
End Sorting.

Lemma value_leb_total : total Sql.value_leb.
Proof.
  intros [|x|x] [|y|y]; simpl; auto.
  - destruct (Z.leb_spec x y); [now left | right; apply Z.leb_le; lia].
  - apply String.leb_total.
Qed.

Lemma row_leb_total {A : Type} (key : A -> Sql.value) (d : Sql.direction) :
  total (Sql.row_leb key d).
Proof. intros a b. destruct d; simpl; apply value_leb_total. Qed.

Section Ordered.
Context {Row : Type}.
Variable column : string -> Row -> Sql.value.

(** Ordering keeps the rows and puts them in the order asked for. *)
Lemma ordered_perm (o : option (string * Sql.direction)) (rows : list Row) :
  Permutation rows (ordered column o rows).
Proof. destruct o as [[name d]|]; simpl; [apply sort_by_perm | reflexivity]. Qed.

Lemma ordered_sorted (name : string) (d : Sql.direction) (rows : list Row) :
  Sorted (fun a b => Sql.row_leb (column name) d a b = true)
         (ordered column (Some (name, d)) rows).
Proof. simpl. apply sort_by_sorted, row_leb_total. Qed.
End Ordered.

Lemma page_length {A : Type} (offset limit : Z) (rows : list A) :
  0 <= limit -> Z.of_nat (List.length (page offset limit rows)) <= limit.
Proof.
  intros Hl. unfold page.
  pose proof (firstn_le_length (Z.to_nat limit) (skipn (Z.to_nat offset) rows)). lia.
Qed.

(* ------------------------------------------------------------------ *)
(** ** The list endpoints, step by step *)

Lemma check_limit_ok (maximum_page_limit limit : Z) :
  limit <= maximum_page_limit -> check_limit maximum_page_limit limit = Ok limit.
Proof.
  intros H. unfold check_limit.
  destruct (Z.ltb_spec maximum_page_limit limit); [lia | reflexivity].
Qed.

Lemma apply_sorting_ok {C : Type} (q : select C) (order_by : string)
    (allowed_attrs : list string) :
  sortable allowed_attrs order_by = true ->
  apply_sorting q order_by allowed_attrs
  = Ok (order_by_ q (fst (sort_token order_by)) (snd (sort_token order_by))).
Proof.
  unfold sortable, apply_sorting. destruct (sort_token order_by) as [field d].
  simpl. now intros ->.
Qed.

Lemma apply_sorting_raise {C : Type} (q : select C) (order_by : string)
    (allowed_attrs : list string) :
  sortable allowed_attrs order_by = false ->
  apply_sorting q order_by allowed_attrs = Raise InvalidSortField.
Proof.
  unfold sortable, apply_sorting. destruct (sort_token order_by) as [field d].
  simpl. now intros ->.
Qed.

Lemma count_all {C Row : Type} (holds : C -> Row -> bool) (table : list Row) :
  count holds table [] = Z.of_nat (List.length table).
Proof.
  unfold count, satisfies. simpl. f_equal. f_equal.
  induction table as [|r table IH]; simpl; [reflexivity | now rewrite IH].
Qed.

Lemma fetch_row_query {C Row : Type} (holds : C -> Row -> bool)
    (column : string -> Row -> Sql.value) (table : list Row) (q : select C)
    (order_by : string) (ls : list loader) (offset limit : Z) :
  0 <= offset -> 0 <= limit ->
  fetch holds column table (row_query q order_by ls offset limit)
  = Ok (page offset limit
          (ordered column (order_of order_by)
             (filter (satisfies holds (whereclause q)) table))).
Proof.
  intros Ho Hl. unfold fetch, row_query, order_of. simpl.
  destruct (sort_token order_by) as [field d]. simpl.
  destruct (Z.ltb_spec offset 0); [lia|].
  destruct (Z.ltb_spec limit 0); [lia|]. reflexivity.
Qed.

Lemma get_datasets_sortable (maximum_page_limit limit : Z) (offset : option Z)
    (uri_pattern order_by : option string) (s : Session) :
  limit <= maximum_page_limit ->
  sortable dataset_allowed_attrs (default "id" order_by) = true ->
  let q := row_query (dataset_query uri_pattern) (default "id" order_by)
             dataset_loaders (default 0 offset) limit in
  get_datasets maximum_page_limit limit offset uri_pattern order_by s
  = (match fetch DatasetModel.holds DatasetModel.column (datasets s) q with
     | Ok rows => Ok (DatasetCollection.mk rows (Z.of_nat (List.length (datasets s))))
     | Raise e => Raise e
     end,
     record (SelectDataset q) (record (CountDataset []) s)).
Proof.
  intros Hl Hs q. subst q.
  unfold get_datasets, format_parameters, bind, lift.
  rewrite (check_limit_ok _ _ Hl).
  unfold get_datasets_view, bind, lift, count_dataset_ids, ret.
  fold (dataset_query uri_pattern).
  rewrite (apply_sorting_ok _ _ _ Hs), count_all.
  unfold scalars_datasets, row_query, dataset_loaders. simpl.
  destruct (fetch _ _ _ _); reflexivity.
Qed.

Lemma get_datasets_unsortable (maximum_page_limit limit : Z) (offset : option Z)
    (uri_pattern order_by : option string) (s : Session) :
  limit <= maximum_page_limit ->
  sortable dataset_allowed_attrs (default "id" order_by) = false ->
  get_datasets maximum_page_limit limit offset uri_pattern order_by s
  = (Raise InvalidSortField, record (CountDataset []) s).
Proof.
  intros Hl Hs.
  unfold get_datasets, format_parameters, bind, lift.
  rewrite (check_limit_ok _ _ Hl).
  unfold get_datasets_view, bind, lift, count_dataset_ids, ret.
  fold (dataset_query uri_pattern).
  rewrite (apply_sorting_raise _ _ _ Hs). reflexivity.
Qed.

Lemma get_dataset_events_sortable (maximum_page_limit limit : Z) (offset : option Z)
    (order_by : option string) (dataset_id : option Z)
    (source_dag_id source_task_id source_run_id : option string)
    (source_map_index : option Z) (s : Session) :
  limit <= maximum_page_limit ->
  sortable event_allowed_attrs (default "timestamp" order_by) = true ->
  let query := event_query dataset_id source_dag_id source_task_id source_run_id
                 source_map_index in
  let q := row_query query (default "timestamp" order_by) [] (default 0 offset) limit in
  get_dataset_events maximum_page_limit limit offset order_by dataset_id
    source_dag_id source_task_id source_run_id source_map_index s
  = (match fetch DatasetEvent.holds DatasetEvent.column (dataset_events s) q with
     | Ok rows =>
         Ok (DatasetEventCollection.mk rows
               (count DatasetEvent.holds (dataset_events s) (whereclause query)))
     | Raise e => Raise e
     end,
     record (SelectDatasetEvent q) (record (CountDatasetEvent (whereclause query)) s)).
Proof.
  intros Hl Hs query q. subst q query.
  unfold get_dataset_events, format_parameters, bind, lift.
  rewrite (check_limit_ok _ _ Hl).
  unfold get_dataset_events_view, bind, lift, get_query_count, ret.
  rewrite (apply_sorting_ok _ _ _ Hs).
  unfold scalars_events, row_query, options. simpl. rewrite app_nil_r.
  destruct (fetch _ _ _ _); reflexivity.
Qed.

Lemma get_dataset_events_unsortable (maximum_page_limit limit : Z) (offset : option Z)
    (order_by : option string) (dataset_id : option Z)
    (source_dag_id source_task_id source_run_id : option string)
    (source_map_index : option Z) (s : Session) :
  limit <= maximum_page_limit ->
  sortable event_allowed_attrs (default "timestamp" order_by) = false ->
  get_dataset_events maximum_page_limit limit offset order_by dataset_id
    source_dag_id source_task_id source_run_id source_map_index s
  = (Raise InvalidSortField,
     record (CountDatasetEvent
               (whereclause (event_query dataset_id source_dag_id source_task_id
                               source_run_id source_map_index))) s).
Proof.
  intros Hl Hs.
  unfold get_dataset_events, format_parameters, bind, lift.
  rewrite (check_limit_ok _ _ Hl).
  unfold get_dataset_events_view, bind, lift, get_query_count, ret.
  rewrite (apply_sorting_raise _ _ _ Hs). reflexivity.
Qed.

(* ------------------------------------------------------------------ *)
(** ** The WHERE clause of the event list *)

Lemma whereclause_where_if {C : Type} (b : bool) (q : select C) (c : C) :
  whereclause (where_if b q c) = whereclause q ++ (if b then [c] else []).
Proof. destruct b; simpl; [reflexivity | now rewrite app_nil_r]. Qed.

Lemma satisfies_app {C Row : Type} (holds : C -> Row -> bool) (l1 l2 : list C) (r : Row) :
  satisfies holds (l1 ++ l2) r = (satisfies holds l1 r && satisfies holds l2 r)%bool.
Proof. unfold satisfies. apply forallb_app. Qed.

Lemma int_criterion (f : option Z) (mk : Z -> DatasetEvent.criterion)
    (field : option Z) (e : DatasetEvent.t) :
  (forall v, DatasetEvent.holds (mk v) e = DatasetEvent.int_eq field v) ->
  satisfies DatasetEvent.holds
    (if Py.truthy_int f then [mk (default 0 f)] else []) e
  = int_filter f field.
Proof.
  intros Hmk. destruct f as [v|]; simpl; [|reflexivity].
  destruct (v =? 0); simpl; [reflexivity|].
  unfold satisfies. simpl. rewrite Hmk, andb_true_r. reflexivity.
Qed.

Lemma str_criterion (f : option string) (mk : string -> DatasetEvent.criterion)
    (field : option string) (e : DatasetEvent.t) :
  (forall v, DatasetEvent.holds (mk v) e = DatasetEvent.str_eq field v) ->
  satisfies DatasetEvent.holds
    (if Py.truthy_str f then [mk (default "" f)] else []) e
  = str_filter f field.
Proof.
  intros Hmk. destruct f as [v|]; simpl; [|reflexivity].
  destruct (String.eqb v ""); simpl; [reflexivity|].
  unfold satisfies. simpl. rewrite Hmk, andb_true_r. reflexivity.
Qed.

(** The criteria that [get_dataset_events] builds select the events that
    equal every filter that was supplied with a true value. *)
Lemma event_query_matches (dataset_id : option Z)
    (source_dag_id source_task_id source_run_id : option string)
    (source_map_index : option Z) (e : DatasetEvent.t) :
  satisfies DatasetEvent.holds
    (whereclause (event_query dataset_id source_dag_id source_task_id
                    source_run_id source_map_index)) e
  = event_matches dataset_id source_dag_id source_task_id source_run_id
      source_map_index e.
Proof.
  unfold event_query, event_matches.
  change (whereclause (options ?q _)) with (whereclause q).
  rewrite !whereclause_where_if, !satisfies_app.
  rewrite (int_criterion dataset_id DatasetEvent.DatasetIdEq
             (Some (DatasetEvent.dataset_id e))) by reflexivity.
  rewrite (str_criterion source_dag_id DatasetEvent.SourceDagIdEq
             (DatasetEvent.source_dag_id e)) by reflexivity.
  rewrite (str_criterion source_task_id DatasetEvent.SourceTaskIdEq
             (DatasetEvent.source_task_id e)) by reflexivity.
  rewrite (str_criterion source_run_id DatasetEvent.SourceRunIdEq
             (DatasetEvent.source_run_id e)) by reflexivity.
  rewrite (int_criterion source_map_index DatasetEvent.SourceMapIndexEq
             (DatasetEvent.source_map_index e)) by reflexivity.
  reflexivity.
Qed.

Lemma count_events_matching (dataset_id : option Z)
    (source_dag_id source_task_id source_run_id : option string)
    (source_map_index : option Z) (table : list DatasetEvent.t) :
  count DatasetEvent.holds table
    (whereclause (event_query dataset_id source_dag_id source_task_id
                    source_run_id source_map_index))
  = Z.of_nat (List.length
                (filter (event_matches dataset_id source_dag_id source_task_id
                           source_run_id source_map_index) table)).
Proof.
  unfold count. f_equal. f_equal. apply filter_ext.
  intros e. apply event_query_matches.
Qed.

(** C7.  With a limit that passes the check, an offset that is not
    negative and an allowed sort field, [get_dataset_events] returns a
    collection whose [total_entries] is the number of events of the table
    that match the filters (a filter with a false value filters nothing);
    it is the same for any two such choices of limit and offset. *)
Theorem events_total_entries (maximum_page_limit : Z) (order_by : option string)
    (dataset_id : option Z)
    (source_dag_id source_task_id source_run_id : option string)
    (source_map_index : option Z) (s : Session)
    (limit limit' : Z) (offset offset' : option Z) :
  0 <= limit <= maximum_page_limit -> 0 <= default 0 offset ->
  0 <= limit' <= maximum_page_limit -> 0 <= default 0 offset' ->
  sortable event_allowed_attrs (default "timestamp" order_by) = true ->
  exists c c',
    fst (get_dataset_events maximum_page_limit limit offset order_by dataset_id
           source_dag_id source_task_id source_run_id source_map_index s) = Ok c
    /\ fst (get_dataset_events maximum_page_limit limit' offset' order_by dataset_id
              source_dag_id source_task_id source_run_id source_map_index s) = Ok c'
    /\ DatasetEventCollection.total_entries c
       = Z.of_nat (List.length
                     (filter (event_matches dataset_id source_dag_id source_task_id
                                source_run_id source_map_index) (dataset_events s)))
    /\ DatasetEventCollection.total_entries c'
       = DatasetEventCollection.total_entries c.
Proof.
  intros [Hl0 Hl] Ho [Hl0' Hl'] Ho' Hs.
  rewrite (get_dataset_events_sortable _ _ offset _ _ _ _ _ _ s Hl Hs).
  rewrite (get_dataset_events_sortable _ _ offset' _ _ _ _ _ _ s Hl' Hs).
  cbv zeta. rewrite !fetch_row_query by assumption.
  rewrite count_events_matching. simpl.
  eexists. eexists. repeat split.
Qed.

Lemma events_total_entries_witness :
  exists c c',
    fst (get_dataset_events 100 1 None None (Some 1) None None None None catalog) = Ok c
    /\ fst (get_dataset_events 100 10 (Some 1) None (Some 1) None None None None catalog)
       = Ok c'
    /\ DatasetEventCollection.total_entries c = 2
    /\ DatasetEventCollection.total_entries c' = DatasetEventCollection.total_entries c.
Proof.
  apply (events_total_entries 100 None (Some 1) None None None None catalog
           1 10 None (Some 1)); simpl; try lia; reflexivity.
Defined.

(* ------------------------------------------------------------------ *)
(** ** Pagination *)

Lemma row_query_clauses {C : Type} (q : select C) (order_by : string)
    (ls : list loader) (offset limit : Z) :
  order_by_clause (row_query q order_by ls offset limit) = order_of order_by
  /\ offset_clause (row_query q order_by ls offset limit) = Some offset
  /\ limit_clause (row_query q order_by ls offset limit) = Some limit.
Proof.
  unfold row_query, order_of. simpl.
  destruct (sort_token order_by). repeat split.
Qed.

(** C8.  With a limit that passes the check, an offset that is not
    negative and an allowed sort field, both list endpoints return the page
    of the matching rows, ordered first, that starts at the offset and
    holds at most [limit] rows.  Two statements are sent: the count, which
    has no offset and no limit and counts over the whole table, and the row
    statement, which carries the ordering, the offset and the limit. *)
Theorem list_pagination (maximum_page_limit limit : Z) (offset : option Z) :
  0 <= limit <= maximum_page_limit -> 0 <= default 0 offset ->
  (forall (uri_pattern order_by : option string) (s : Session),
     sortable dataset_allowed_attrs (default "id" order_by) = true ->
     let r := get_datasets maximum_page_limit limit offset uri_pattern order_by s in
     exists c q,
       fst r = Ok c
       /\ DatasetCollection.datasets c
          = page (default 0 offset) limit
              (ordered DatasetModel.column (order_of (default "id" order_by))
                 (filter (satisfies DatasetModel.holds
                            (whereclause (dataset_query uri_pattern))) (datasets s)))
       /\ Z.of_nat (List.length (DatasetCollection.datasets c)) <= limit
       /\ DatasetCollection.total_entries c = Z.of_nat (List.length (datasets s))
       /\ executed (snd r) = executed s ++ [CountDataset []; SelectDataset q]
       /\ order_by_clause q = order_of (default "id" order_by)
       /\ offset_clause q = Some (default 0 offset)
       /\ limit_clause q = Some limit)
  /\ (forall (order_by : option string) (dataset_id : option Z)
        (source_dag_id source_task_id source_run_id : option string)
        (source_map_index : option Z) (s : Session),
     sortable event_allowed_attrs (default "timestamp" order_by) = true ->
     let r := get_dataset_events maximum_page_limit limit offset order_by dataset_id
                source_dag_id source_task_id source_run_id source_map_index s in
     let matches := event_matches dataset_id source_dag_id source_task_id
                      source_run_id source_map_index in
     exists c q criteria,
       fst r = Ok c
       /\ DatasetEventCollection.dataset_events c
          = page (default 0 offset) limit
              (ordered DatasetEvent.column (order_of (default "timestamp" order_by))
                 (filter matches (dataset_events s)))
       /\ Z.of_nat (List.length (DatasetEventCollection.dataset_events c)) <= limit
       /\ DatasetEventCollection.total_entries c
          = Z.of_nat (List.length (filter matches (dataset_events s)))
       /\ executed (snd r)
          = executed s ++ [CountDatasetEvent criteria; SelectDatasetEvent q]
       /\ order_by_clause q = order_of (default "timestamp" order_by)
       /\ offset_clause q = Some (default 0 offset)
       /\ limit_clause q = Some limit).
Proof.
  intros [Hl0 Hl] Ho. split.
  - intros uri_pattern order_by s Hs r. subst r.
    rewrite (get_datasets_sortable _ _ _ _ _ s Hl Hs). cbv zeta.
    rewrite fetch_row_query by assumption.
    eexists. eexists. split; [reflexivity|]. simpl.
    split; [reflexivity|]. split; [now apply page_length|].
    split; [reflexivity|]. split; [now rewrite <- app_assoc|].
    apply row_query_clauses.
  - intros order_by dataset_id source_dag_id source_task_id source_run_id
      source_map_index s Hs r matches. subst r matches.
    rewrite (get_dataset_events_sortable _ _ _ _ _ _ _ _ _ s Hl Hs). cbv zeta.
    rewrite fetch_row_query by assumption. rewrite count_events_matching.
    rewrite (filter_ext _ _ (event_query_matches dataset_id source_dag_id
                               source_task_id source_run_id source_map_index)).
    eexists. eexists. eexists. split; [reflexivity|]. simpl.
    split; [reflexivity|]. split; [now apply page_length|].
    split; [reflexivity|]. split; [now rewrite <- app_assoc|].
    apply row_query_clauses.
Qed.

Lemma list_pagination_witness :
  (exists c,
     fst (get_datasets 100 2 (Some 1) None (Some "-uri") catalog) = Ok c
     /\ DatasetCollection.datasets c = [ds3; ds2]
     /\ DatasetCollection.total_entries c = 5)
  /\ (exists c,
     fst (get_dataset_events 100 2 (Some 1) None None None (Some "task") None None
            catalog) = Ok c
     /\ DatasetEventCollection.dataset_events c = [ev3; ev1]
     /\ DatasetEventCollection.total_entries c = 3).
Proof.
  assert (Hl : 0 <= 2 <= 100) by lia.
  assert (Ho : 0 <= default 0 (Some 1)) by (simpl; lia).
  destruct (list_pagination 100 2 (Some 1) Hl Ho) as [Hd He].
  split.
  - destruct (Hd None (Some "-uri") catalog eq_refl)
      as (c & q & H1 & H2 & _ & H3 & _).
    exists c. repeat split; assumption.
  - destruct (He None None None (Some "task") None None catalog eq_refl)
      as (c & q & criteria & H1 & H2 & _ & H3 & _).
    exists c. repeat split; assumption.
Defined.

(* ------------------------------------------------------------------ *)
(** ** The count of the dataset list *)

(** C2 fails on the code.  [get_datasets] counts before it filters: on the
    five sample datasets and the pattern [ds1], one dataset matches and is
    returned, the count statement has no criterion whereas the row
    statement has the pattern, and [total_entries] is 5. *)
Theorem get_datasets_counts_unfiltered :
  exists c q,
    fst (get_datasets 100 10 None (Some "ds1") None catalog) = Ok c
    /\ DatasetCollection.datasets c = [ds1]
    /\ filter (fun d => contains_ci "ds1" (DatasetModel.uri d)) (datasets catalog) = [ds1]
    /\ DatasetCollection.total_entries c = 5
    /\ executed (snd (get_datasets 100 10 None (Some "ds1") None catalog))
       = [CountDataset []; SelectDataset q]
    /\ whereclause q = [DatasetModel.UriIlike "%ds1%"].
Proof.
  eexists. eexists. repeat split.
Qed.

(* ------------------------------------------------------------------ *)
(** ** Sort fields outside the allow-list *)

(** C3, as the code has it.  With a limit that passes the check and a sort
    field outside the allow-list of the entity, both list endpoints raise
    [InvalidSortField]; the count statement has been sent by then, and it
    is the only statement sent: the row statement is not. *)
Theorem invalid_sort_field_after_count (maximum_page_limit limit : Z) :
  limit <= maximum_page_limit ->
  (forall (offset : option Z) (uri_pattern order_by : option string) (s : Session),
     sortable dataset_allowed_attrs (default "id" order_by) = false ->
     let r := get_datasets maximum_page_limit limit offset uri_pattern order_by s in
     fst r = Raise InvalidSortField
     /\ executed (snd r) = executed s ++ [CountDataset []]
     /\ datasets (snd r) = datasets s)
  /\ (forall (offset : option Z) (order_by : option string) (dataset_id : option Z)
        (source_dag_id source_task_id source_run_id : option string)
        (source_map_index : option Z) (s : Session),
     sortable event_allowed_attrs (default "timestamp" order_by) = false ->
     let r := get_dataset_events maximum_page_limit limit offset order_by dataset_id
                source_dag_id source_task_id source_run_id source_map_index s in
     fst r = Raise InvalidSortField
     /\ (exists criteria, executed (snd r) = executed s ++ [CountDatasetEvent criteria])
     /\ dataset_events (snd r) = dataset_events s).
Proof.
  intros Hl. split.
  - intros offset uri_pattern order_by s Hs r. subst r.
    rewrite (get_datasets_unsortable _ _ _ _ _ s Hl Hs). repeat split.
  - intros offset order_by dataset_id source_dag_id source_task_id source_run_id
      source_map_index s Hs r. subst r.
    rewrite (get_dataset_events_unsortable _ _ _ _ _ _ _ _ _ s Hl Hs).
    split; [reflexivity|]. split; [|reflexivity]. eexists. reflexivity.
Qed.

Lemma invalid_sort_field_after_count_witness :
  fst (get_datasets 100 10 None None (Some "nonexistent_field") catalog)
  = Raise InvalidSortField
  /\ fst (get_dataset_events 100 10 None (Some "-dataset_id") None None None None None
            catalog) = Raise InvalidSortField.
Proof.
  assert (Hl : 10 <= 100) by lia.
  destruct (invalid_sort_field_after_count 100 10 Hl) as [Hd He].
  split.
  - exact (proj1 (Hd None None (Some "nonexistent_field") catalog eq_refl)).
  - exact (proj1 (He None (Some "-dataset_id") None None None None None catalog eq_refl)).
Defined.

(** C3, as the specification words it, fails: with [order_by="nonexistent_field"]
    both endpoints raise [InvalidSortField], but each has sent its count
    statement to the database before. *)
Lemma invalid_sort_field_not_before_count :
  executed catalog = []
  /\ get_datasets 100 10 None None (Some "nonexistent_field") catalog
     = (Raise InvalidSortField, mkSession (datasets catalog) (dataset_events catalog)
                                  [CountDataset []])
  /\ get_dataset_events 100 10 None (Some "nonexistent_field") None None None None None
       catalog
     = (Raise InvalidSortField, mkSession (datasets catalog) (dataset_events catalog)
                                  [CountDatasetEvent []]).
Proof. repeat split. Qed.

(* ------------------------------------------------------------------ *)
(** ** What the filters compare *)

Lemma dataset_query_literal (pattern : string) (d : DatasetModel.t) :
  literal_pattern pattern = true ->
  satisfies DatasetModel.holds (whereclause (dataset_query (Some pattern))) d
  = contains_ci pattern (DatasetModel.uri d).
Proof.
  intros Hp. unfold dataset_query. simpl.
  destruct (String.eqb_spec pattern "") as [->|Hne]; simpl.
  - unfold contains_ci. simpl. now destruct (Sql.lower _).
  - unfold satisfies. simpl. rewrite andb_true_r.
    now apply ilike_literal_contains.
Qed.

Lemma int_filter_spec (f field : option Z) :
  int_filter f field = true <-> (forall v, f = Some v -> v <> 0 -> field = Some v).
Proof.
  destruct f as [v|]; simpl.
  - destruct (Z.eqb_spec v 0) as [->|Hv].
    + split; [|reflexivity]. intros _ v Hv. injection Hv as <-. congruence.
    + destruct field as [x|].
      * rewrite Z.eqb_eq. split.
        -- intros -> w Hw _. now injection Hw as <-.
        -- intros H. specialize (H v eq_refl Hv). now injection H.
      * split; [discriminate|]. intros H. specialize (H v eq_refl Hv). discriminate.
  - split; [|reflexivity]. intros _ v Hv. discriminate.
Qed.

Lemma str_filter_spec (f field : option string) :
  str_filter f field = true <-> (forall v, f = Some v -> v <> "" -> field = Some v).
Proof.
  destruct f as [v|]; simpl.
  - destruct (String.eqb_spec v "") as [->|Hv].
    + split; [|reflexivity]. intros _ v Hv. injection Hv as <-. congruence.
    + destruct field as [x|].
      * rewrite String.eqb_eq. split.
        -- intros -> w Hw _. now injection Hw as <-.
        -- intros H. specialize (H v eq_refl Hv). now injection H.
      * split; [discriminate|]. intros H. specialize (H v eq_refl Hv). discriminate.
  - split; [|reflexivity]. intros _ v Hv. discriminate.
Qed.

(** C6, as the code has it.  For a pattern without the special characters
    of LIKE, [get_datasets] returns the page of the ordered datasets whose
    uri contains the pattern ignoring case.  The WHERE clause of
    [get_dataset_events] holds of an event exactly when each filter
    supplied with a true value equals the column of the event. *)
Theorem uri_pattern_literal_contains (maximum_page_limit limit : Z) (offset : option Z)
    (pattern : string) (order_by : option string) (s : Session) :
  literal_pattern pattern = true ->
  0 <= limit <= maximum_page_limit -> 0 <= default 0 offset ->
  sortable dataset_allowed_attrs (default "id" order_by) = true ->
  (exists c,
     fst (get_datasets maximum_page_limit limit offset (Some pattern) order_by s) = Ok c
     /\ DatasetCollection.datasets c
        = page (default 0 offset) limit
            (ordered DatasetModel.column (order_of (default "id" order_by))
               (filter (fun d => contains_ci pattern (DatasetModel.uri d)) (datasets s))))
  /\ (forall (dataset_id : option Z)
        (source_dag_id source_task_id source_run_id : option string)
        (source_map_index : option Z) (e : DatasetEvent.t),
      satisfies DatasetEvent.holds
        (whereclause (event_query dataset_id source_dag_id source_task_id
                        source_run_id source_map_index)) e = true
      <-> ((forall v, dataset_id = Some v -> v <> 0 -> DatasetEvent.dataset_id e = v)
           /\ (forall v, source_dag_id = Some v -> v <> "" ->
                         DatasetEvent.source_dag_id e = Some v)
           /\ (forall v, source_task_id = Some v -> v <> "" ->
                         DatasetEvent.source_task_id e = Some v)
           /\ (forall v, source_run_id = Some v -> v <> "" ->
                         DatasetEvent.source_run_id e = Some v)
           /\ (forall v, source_map_index = Some v -> v <> 0 ->
                         DatasetEvent.source_map_index e = Some v))).
Proof.
  intros Hp [Hl0 Hl] Ho Hs. split.
  - rewrite (get_datasets_sortable _ _ _ _ _ s Hl Hs). cbv zeta.
    rewrite fetch_row_query by assumption.
    rewrite (filter_ext _ _ (fun d => dataset_query_literal pattern d Hp)).
    eexists. split; reflexivity.
  - intros dataset_id source_dag_id source_task_id source_run_id source_map_index e.
    rewrite event_query_matches. unfold event_matches.
    rewrite !andb_true_iff, !int_filter_spec, !str_filter_spec.
    split.
    + intros [[[[H1 H2] H3] H4] H5]. repeat split; try assumption.
      intros v Hv Hv0. specialize (H1 v Hv Hv0). now injection H1.
    + intros (H1 & H2 & H3 & H4 & H5). repeat split; try assumption.
      intros v Hv Hv0. now rewrite (H1 v Hv Hv0).
Qed.

Lemma uri_pattern_literal_contains_witness :
  exists c,
    fst (get_datasets 100 10 None (Some "bucket") None catalog) = Ok c
    /\ DatasetCollection.datasets c = [bucket].
Proof.
  assert (Hl : 0 <= 10 <= 100) by lia.
  assert (Ho : 0 <= default 0 None) by (simpl; lia).
  exact (proj1 (uri_pattern_literal_contains 100 10 None "bucket" None catalog
                  eq_refl Hl Ho eq_refl)).
Defined.

(** C6, as the specification words it, fails: the pattern [a_c] selects the
    dataset with uri [abc], which does not contain [a_c]. *)
Lemma uri_pattern_wildcard :
  fst (get_datasets 100 10 None (Some "a_c") None catalog)
  = Ok (DatasetCollection.mk [abc] 5)
  /\ DatasetModel.uri abc = "abc"
  /\ contains_ci "a_c" "abc" = false.
Proof. repeat split. Qed.

(* ------------------------------------------------------------------ *)
(** ** The offset *)

Lemma fetch_no_invalid_parameter {C Row : Type} (holds : C -> Row -> bool)
    (column : string -> Row -> Sql.value) (table : list Row) (q : select C) :
  fetch holds column table q <> Raise InvalidParameter.
Proof.
  unfold fetch, skipped, limited.
  destruct (offset_clause q) as [o|]; [destruct (o <? 0); [discriminate|]|];
    (destruct (limit_clause q) as [l|]; [destruct (l <? 0)|]; discriminate).
Qed.

(** C10, as the code has it.  The list endpoints do not check the offset.
    With a limit that passes the check, a negative offset never makes them
    raise [InvalidParameter]: the count statement is sent, and when the
    sort field is allowed the row statement is sent with that offset in
    it.  An offset that is left out is the offset 0. *)
Theorem offset_not_validated (maximum_page_limit limit offset : Z) :
  limit <= maximum_page_limit -> offset < 0 ->
  (forall (uri_pattern order_by : option string) (s : Session),
     let r := get_datasets maximum_page_limit limit (Some offset) uri_pattern
                order_by s in
     fst r <> Raise InvalidParameter
     /\ (exists rest, executed (snd r) = executed s ++ CountDataset [] :: rest)
     /\ (sortable dataset_allowed_attrs (default "id" order_by) = true ->
         exists q, executed (snd r) = executed s ++ [CountDataset []; SelectDataset q]
                   /\ offset_clause q = Some offset)
     /\ get_datasets maximum_page_limit limit None uri_pattern order_by s
        = get_datasets maximum_page_limit limit (Some 0) uri_pattern order_by s)
  /\ (forall (order_by : option string) (dataset_id : option Z)
        (source_dag_id source_task_id source_run_id : option string)
        (source_map_index : option Z) (s : Session),
     let r := get_dataset_events maximum_page_limit limit (Some offset) order_by
                dataset_id source_dag_id source_task_id source_run_id
                source_map_index s in
     fst r <> Raise InvalidParameter
     /\ (exists criteria rest,
           executed (snd r) = executed s ++ CountDatasetEvent criteria :: rest)
     /\ (sortable event_allowed_attrs (default "timestamp" order_by) = true ->
         exists criteria q,
           executed (snd r)
           = executed s ++ [CountDatasetEvent criteria; SelectDatasetEvent q]
           /\ offset_clause q = Some offset)
     /\ get_dataset_events maximum_page_limit limit None order_by dataset_id
          source_dag_id source_task_id source_run_id source_map_index s
        = get_dataset_events maximum_page_limit limit (Some 0) order_by dataset_id
            source_dag_id source_task_id source_run_id source_map_index s).
Proof.
  intros Hl Ho. split.
  - intros uri_pattern order_by s r. subst r.
    destruct (sortable dataset_allowed_attrs (default "id" order_by)) eqn:Hs.
    + rewrite (get_datasets_sortable _ _ _ _ _ s Hl Hs). cbv zeta. simpl fst. simpl snd.
      split.
      { pose proof (fetch_no_invalid_parameter DatasetModel.holds DatasetModel.column
                      (datasets s)
                      (row_query (dataset_query uri_pattern) (default "id" order_by)
                         dataset_loaders (default 0 (Some offset)) limit)) as Hne.
        destruct (fetch _ _ _ _); [discriminate|].
        intros H. apply Hne. injection H as ->. reflexivity. }
      split; [eexists; simpl; now rewrite <- app_assoc|].
      split; [|reflexivity].
      intros _. eexists. split; [simpl; now rewrite <- app_assoc|].
      apply row_query_clauses.
    + rewrite (get_datasets_unsortable _ _ _ _ _ s Hl Hs). simpl.
      split; [discriminate|]. split; [now exists []|].
      split; [discriminate | reflexivity].
  - intros order_by dataset_id source_dag_id source_task_id source_run_id
      source_map_index s r. subst r.
    destruct (sortable event_allowed_attrs (default "timestamp" order_by)) eqn:Hs.
    + rewrite (get_dataset_events_sortable _ _ _ _ _ _ _ _ _ s Hl Hs).
      cbv zeta. simpl fst. simpl snd.
      split.
      { pose proof (fetch_no_invalid_parameter DatasetEvent.holds DatasetEvent.column
                      (dataset_events s)
                      (row_query (event_query dataset_id source_dag_id source_task_id
                                    source_run_id source_map_index)
                         (default "timestamp" order_by) []
                         (default 0 (Some offset)) limit)) as Hne.
        destruct (fetch _ _ _ _); [discriminate|].
        intros H. apply Hne. injection H as ->. reflexivity. }
      split; [eexists; eexists; simpl; now rewrite <- app_assoc|].
      split; [|reflexivity].
      intros _. eexists. eexists. split; [simpl; now rewrite <- app_assoc|].
      apply row_query_clauses.
    + rewrite (get_dataset_events_unsortable _ _ _ _ _ _ _ _ _ s Hl Hs). simpl.
      split; [discriminate|]. split; [eexists; now exists []|].
      split; [discriminate | reflexivity].
Qed.

Lemma offset_not_validated_witness :
  fst (get_datasets 100 10 (Some (-1)) None None catalog) <> Raise InvalidParameter
  /\ fst (get_dataset_events 100 10 (Some (-1)) None None None None None None catalog)
     <> Raise InvalidParameter.
Proof.
  assert (Hl : 10 <= 100) by lia.
  assert (Ho : -1 < 0) by lia.
  destruct (offset_not_validated 100 10 (-1) Hl Ho) as [Hd He].
  split.
  - exact (proj1 (Hd None None catalog)).
  - exact (proj1 (He None None None None None None catalog)).
Defined.

(** C10, as the specification words it, fails: with the offset -1 neither
    endpoint raises [InvalidParameter], and each has sent both of its
    statements by then, the row statement with the offset -1 in it. *)
Lemma negative_offset_reaches_database :
  fst (get_datasets 100 10 (Some (-1)) None None catalog) <> Raise InvalidParameter
  /\ executed (snd (get_datasets 100 10 (Some (-1)) None None catalog))
     = [CountDataset [];
        SelectDataset (mkSelect [] (Some ("id", Sql.Asc)) (Some (-1)) (Some 10)
                         dataset_loaders)]
  /\ fst (get_dataset_events 100 10 (Some (-1)) None None None None None None catalog)
     <> Raise InvalidParameter
  /\ executed (snd (get_dataset_events 100 10 (Some (-1)) None None None None None None
                      catalog))
     = [CountDatasetEvent [];
        SelectDatasetEvent (mkSelect [] (Some ("timestamp", Sql.Asc)) (Some (-1))
                              (Some 10) [subqueryload "created_dagruns"])].
Proof. repeat split; discriminate. Qed.

(* ------------------------------------------------------------------ *)
(** ** Further properties of [get_dataset] and [delete_dataset] *)

Lemma first_row_in {A : Type} (f : A -> bool) (l : list A) (x : A) :
  hd_error (filter f l) = Some x -> In x l /\ f x = true.
Proof.
  intros H. apply filter_In.
  destruct (filter f l); simpl in H; [discriminate|].
  injection H as ->. now left.
Qed.

Lemma no_first_row {A : Type} (f : A -> bool) (l : list A) :
  hd_error (filter f l) = None -> forall x, In x l -> f x = false.
Proof.
  intros H x Hx. destruct (f x) eqn:E; [|reflexivity].
  assert (Hin : In x (filter f l)) by (apply filter_In; now split).
  destruct (filter f l); [contradiction | discriminate].
Qed.

(** X1.  [get_dataset] either returns a dataset of the table that has the
    requested uri, or raises the [NotFound] error of that uri, and then no
    dataset of the table has the uri. *)
Theorem get_dataset_answer (u : string) (s : Session) :
  (exists d, fst (get_dataset u s) = Ok d
             /\ In d (datasets s) /\ DatasetModel.uri d = u)
  \/ (fst (get_dataset u s)
      = Raise (NotFound "Dataset not found"
                 (String.append "The Dataset with uri: `"
                    (String.append u "` was not found")))
      /\ forall d, In d (datasets s) -> DatasetModel.uri d <> u).
Proof.
  rewrite get_dataset_unfold. cbv zeta.
  destruct (hd_error (filter (by_uri u) (datasets s))) as [d|] eqn:Hd.
  - left. exists d. apply first_row_in in Hd. destruct Hd as [Hin Hu].
    repeat split; [exact Hin | now apply by_uri_true].
  - right. split; [reflexivity|].
    intros d Hin. apply by_uri_false. now apply (no_first_row _ _ Hd).
Qed.

(** X2.  [delete_dataset] changes nothing when it fails: if it raises, the
    lookup is the only statement sent and the session is otherwise as
    before.  If it returns, it answers 204 and one row was deleted: a
    dataset of the table that has the requested uri, no consuming DAG and
    no producing task; the delete of its id follows the lookup, and the
    rows with another id stay, in their order. *)
Theorem delete_dataset_outcome (u : string) (s : Session) :
  (exists e, fst (delete_dataset u s) = Raise e
             /\ snd (delete_dataset u s)
                = record (SelectDataset (where_ select_all (DatasetModel.UriEq u))) s)
  \/ (exists d, fst (delete_dataset u s) = Ok (NoContent, 204)
                /\ In d (datasets s) /\ DatasetModel.uri d = u
                /\ DatasetModel.consuming_dags d = []
                /\ DatasetModel.producing_tasks d = []
                /\ executed (snd (delete_dataset u s))
                   = executed s ++ [SelectDataset (where_ select_all (DatasetModel.UriEq u));
                                    DeleteDataset (DatasetModel.id d)]
                /\ datasets (snd (delete_dataset u s)) = without d (datasets s)
                /\ dataset_events (snd (delete_dataset u s)) = dataset_events s).
Proof.
  rewrite delete_dataset_unfold. cbv zeta.
  destruct (hd_error (filter (by_uri u) (datasets s))) as [d|] eqn:Hd.
  - destruct (Py.truthy_list (DatasetModel.consuming_dags d)
              || Py.truthy_list (DatasetModel.producing_tasks d))%bool eqn:Hg.
    + left. eexists. split; reflexivity.
    + right. exists d. apply first_row_in in Hd. destruct Hd as [Hin Hu].
      apply orb_false_iff in Hg. destruct Hg as [Hc Hp].
      apply truthy_list_false in Hc. apply truthy_list_false in Hp.
      split; [reflexivity|]. split; [exact Hin|].
      split; [now apply by_uri_true|]. split; [exact Hc|]. split; [exact Hp|].
      simpl. rewrite <- app_assoc. repeat split.
  - left. eexists. split; reflexivity.
Qed.

(** X3.  [delete_dataset] judges the dataset that [get_dataset] returns for
    the same uri: where [get_dataset] raises, [delete_dataset] raises the
    same error; where it returns a dataset, [delete_dataset] raises
    [Conflict] if that dataset passes the test of line 67 and answers 204
    otherwise. *)
Theorem delete_follows_get (u : string) (s : Session) :
  fst (delete_dataset u s)
  = match fst (get_dataset u s) with
    | Raise e => Raise e
    | Ok d => if guard d
              then Raise (Conflict "Dataset is still referenced by other DAG")
              else Ok (NoContent, 204)
    end.
Proof.
  rewrite delete_dataset_unfold, get_dataset_unfold. cbv zeta. unfold guard.
  destruct (hd_error (filter (by_uri u) (datasets s))) as [d|]; simpl;
    [|reflexivity].
  destruct (Py.truthy_list (DatasetModel.consuming_dags d)
            || Py.truthy_list (DatasetModel.producing_tasks d))%bool; reflexivity.
Qed.

(* ------------------------------------------------------------------ *)
(** ** The three reading endpoints write nothing *)

Lemma only_read_refl (s : Session) : only_read s s.
Proof.
  repeat split. exists []. split; [now rewrite app_nil_r | reflexivity].
Qed.

Lemma only_read_record (st : statement) (s s' : Session) :
  is_delete st = false -> only_read s s' -> only_read s (record st s').
Proof.
  intros Hst (Hd & He & new & Hx & Hnew). repeat split; simpl; try assumption.
  exists (new ++ [st]). split.
  - rewrite Hx. now rewrite app_assoc.
  - rewrite forallb_app, Hnew. simpl. now rewrite Hst.
Qed.

(** X4.  [get_dataset], [get_datasets] and [get_dataset_events] never
    write, whatever their arguments and whether they return or raise: both
    tables are as before and no statement they send is a delete. *)
Theorem reads_never_write (s : Session) :
  (forall u, only_read s (snd (get_dataset u s)))
  /\ (forall maximum_page_limit limit offset uri_pattern order_by,
        only_read s (snd (get_datasets maximum_page_limit limit offset uri_pattern
                            order_by s)))
  /\ (forall maximum_page_limit limit offset order_by dataset_id source_dag_id
             source_task_id source_run_id source_map_index,
        only_read s (snd (get_dataset_events maximum_page_limit limit offset order_by
                            dataset_id source_dag_id source_task_id source_run_id
                            source_map_index s))).
Proof.
  split; [|split].
  - intros u. rewrite get_dataset_unfold. cbv zeta.
    destruct (hd_error _); simpl;
      apply only_read_record; try reflexivity; apply only_read_refl.
  - intros maximum_page_limit limit offset uri_pattern order_by.
    unfold get_datasets, format_parameters, bind, lift, check_limit.
    destruct (maximum_page_limit <? limit); [apply only_read_refl|].
    unfold get_datasets_view, bind, lift, count_dataset_ids, ret.
    destruct (apply_sorting _ _ _) as [q|e]; simpl.
    + unfold scalars_datasets. destruct (fetch _ _ _ _); simpl;
        repeat (apply only_read_record; [reflexivity|]); apply only_read_refl.
    + apply only_read_record; [reflexivity | apply only_read_refl].
  - intros maximum_page_limit limit offset order_by dataset_id source_dag_id
      source_task_id source_run_id source_map_index.
    unfold get_dataset_events, format_parameters, bind, lift, check_limit.
    destruct (maximum_page_limit <? limit); [apply only_read_refl|].
    unfold get_dataset_events_view, bind, lift, get_query_count, ret.
    destruct (apply_sorting _ _ _) as [q|e]; simpl.
    + unfold scalars_events. destruct (fetch _ _ _ _); simpl;
        repeat (apply only_read_record; [reflexivity|]); apply only_read_refl.
    + apply only_read_record; [reflexivity | apply only_read_refl].
Qed.

(* ------------------------------------------------------------------ *)
(** ** What a successful delete leaves behind *)

Lemma delete_dataset_ok (u : string) (s : Session) (r : NoContentType * Z) :
  fst (delete_dataset u s) = Ok r ->
  exists d, hd_error (filter (by_uri u) (datasets s)) = Some d
            /\ In d (datasets s) /\ DatasetModel.uri d = u
            /\ datasets (snd (delete_dataset u s)) = without d (datasets s).
Proof.
  rewrite delete_dataset_unfold. cbv zeta.
  destruct (hd_error (filter (by_uri u) (datasets s))) as [d|] eqn:Hd;
    [|discriminate].
  destruct (Py.truthy_list (DatasetModel.consuming_dags d)
            || Py.truthy_list (DatasetModel.producing_tasks d))%bool;
    [discriminate|].
  intros _. exists d. destruct (first_row_in _ _ _ Hd) as [Hin Hu].
  split; [reflexivity|]. split; [exact Hin|].
  split; [now apply by_uri_true | reflexivity].
Qed.

Lemma key_injective {A K : Type} (key : A -> K) (l : list A) (x y : A) :
  NoDup (map key l) -> In x l -> In y l -> key x = key y -> x = y.
Proof.
  induction l as [|a l IH]; intros Hnd Hx Hy Hk; [contradiction|].
  inversion Hnd as [|k ks Hnotin Hnd']; subst.
  destruct Hx as [->|Hx], Hy as [->|Hy].
  - reflexivity.
  - exfalso. apply Hnotin. rewrite Hk. now apply in_map.
  - exfalso. apply Hnotin. rewrite <- Hk. now apply in_map.
  - now apply IH.
Qed.

Lemma NoDup_map_filter {A K : Type} (key : A -> K) (f : A -> bool) (l : list A) :
  NoDup (map key l) -> NoDup (map key (filter f l)).
Proof.
  induction l as [|a l IH]; intros Hnd; [constructor|].
  inversion Hnd as [|k ks Hnotin Hnd']; subst. simpl.
  destruct (f a); [|now apply IH].
  simpl. constructor; [|now apply IH].
  intros Hin. apply Hnotin. apply in_map_iff in Hin.
  destruct Hin as (x & Hk & Hx). apply filter_In in Hx.
  rewrite <- Hk. apply in_map. tauto.
Qed.

Lemma filter_filter_kept {A : Type} (f g : A -> bool) (l : list A) :
  (forall x, In x l -> f x = true -> g x = true) ->
  filter f (filter g l) = filter f l.
Proof.
  induction l as [|a l IH]; intros H; [reflexivity|]. simpl.
  assert (IH' : filter f (filter g l) = filter f l).
  { apply IH. intros x Hx. apply H. now right. }
  destruct (g a) eqn:Hg; simpl.
  - now rewrite IH'.
  - destruct (f a) eqn:Hf; [|exact IH'].
    rewrite (H a (or_introl eq_refl) Hf) in Hg. discriminate.
Qed.

Lemma without_length (d : DatasetModel.t) (l : list DatasetModel.t) :
  NoDup (map DatasetModel.id l) -> In d l ->
  S (List.length (without d l)) = List.length l.
Proof.
  induction l as [|a l IH]; intros Hnd Hin; [contradiction|].
  inversion Hnd as [|k ks Hnotin Hnd']; subst. simpl.
  destruct Hin as [->|Hin].
  - rewrite Z.eqb_refl. simpl. f_equal.
    unfold without. symmetry. f_equal.
    clear IH Hnd Hnd'. induction l as [|b l IHl]; [reflexivity|]. simpl.
    destruct (Z.eqb_spec (DatasetModel.id b) (DatasetModel.id d)) as [E|E]; simpl.
    + exfalso. apply Hnotin. left. exact E.
    + f_equal. apply IHl. intros H. apply Hnotin. now right.
  - destruct (Z.eqb_spec (DatasetModel.id a) (DatasetModel.id d)) as [E|E]; simpl.
    + exfalso. apply Hnotin. rewrite E. now apply in_map.
    + f_equal. now apply IH.
Qed.

(** X5.  A successful [delete_dataset] touches no other dataset: with [id]
    a unique key, [get_dataset] on any other uri answers after the delete
    what it answered before. *)
Theorem delete_keeps_other_datasets (u u' : string) (s : Session)
    (r : NoContentType * Z) :
  id_unique s -> fst (delete_dataset u s) = Ok r -> u' <> u ->
  fst (get_dataset u' (snd (delete_dataset u s))) = fst (get_dataset u' s).
Proof.
  intros Hid Hok Hne.
  destruct (delete_dataset_ok _ _ _ Hok) as (d & _ & Hin & Hu & Hrows).
  rewrite !get_dataset_unfold. cbv zeta. rewrite Hrows. unfold without.
  rewrite filter_filter_kept; [destruct (hd_error _); reflexivity|].
  intros x Hx Hxu. apply by_uri_true in Hxu.
  apply negb_true_iff. apply Z.eqb_neq. intros Heq.
  assert (x = d) by (apply (key_injective DatasetModel.id (datasets s)); assumption).
  subst x. congruence.
Qed.

Lemma delete_keeps_other_datasets_witness :
  fst (get_dataset "ds2" (snd (delete_dataset "ds1" catalog)))
  = fst (get_dataset "ds2" catalog).
Proof.
  assert (Hid : id_unique catalog).
  { unfold id_unique; simpl. repeat constructor; simpl; intuition discriminate. }
  apply (delete_keeps_other_datasets "ds1" "ds2" catalog (NoContent, 204) Hid).
  - reflexivity.
  - discriminate.
Defined.

(** X6.  A dataset is deleted once: with [uri] a unique key, a second
    [delete_dataset] on the uri of a successful one raises [NotFound]. *)
Theorem delete_twice_not_found (u : string) (s : Session) (r : NoContentType * Z) :
  uri_unique s -> fst (delete_dataset u s) = Ok r ->
  fst (delete_dataset u (snd (delete_dataset u s)))
  = Raise (NotFound "Dataset not found"
             (String.append "The Dataset with uri: `"
                (String.append u "` was not found"))).
Proof.
  intros Hu Hok.
  destruct (delete_dataset_ok _ _ _ Hok) as (d & _ & Hin & Hd & Hrows).
  rewrite (delete_dataset_unfold u (snd _)). cbv zeta. rewrite Hrows.
  unfold without. rewrite <- Hd at 1.
  rewrite (lookup_after_delete _ _ Hu Hin). reflexivity.
Qed.

Lemma delete_twice_not_found_witness :
  fst (delete_dataset "abc" (snd (delete_dataset "abc" catalog)))
  = Raise (NotFound "Dataset not found" "The Dataset with uri: `abc` was not found").
Proof.
  assert (Hu : uri_unique catalog).
  { unfold uri_unique; simpl. repeat constructor; simpl; intuition discriminate. }
  apply (delete_twice_not_found "abc" catalog (NoContent, 204) Hu). reflexivity.
Defined.

(** X7.  [delete_dataset] keeps the keys of the dataset table: if the uris
    are unique before the call they are unique after it, and so are the
    ids, whether the call returns or raises. *)
Theorem delete_keeps_keys (u : string) (s : Session) :
  (uri_unique s -> uri_unique (snd (delete_dataset u s)))
  /\ (id_unique s -> id_unique (snd (delete_dataset u s))).
Proof.
  unfold uri_unique, id_unique.
  rewrite delete_dataset_unfold. cbv zeta.
  destruct (hd_error (filter (by_uri u) (datasets s))) as [d|]; [|simpl; tauto].
  destruct (Py.truthy_list (DatasetModel.consuming_dags d)
            || Py.truthy_list (DatasetModel.producing_tasks d))%bool;
    [simpl; tauto|].
  simpl. split; apply NoDup_map_filter.
Qed.

Lemma delete_keeps_keys_witness :
  uri_unique (snd (delete_dataset "ds1" catalog))
  /\ id_unique (snd (delete_dataset "ds1" catalog)).
Proof.
  destruct (delete_keeps_keys "ds1" catalog) as [Hu Hi]. split.
  - apply Hu. unfold uri_unique; simpl.
    repeat constructor; simpl; intuition discriminate.
  - apply Hi. unfold id_unique; simpl.
    repeat constructor; simpl; intuition discriminate.
Defined.

(* ------------------------------------------------------------------ *)
(** ** Pages *)

Lemma page_incl {A : Type} (offset limit : Z) (rows : list A) (x : A) :
  In x (page offset limit rows) -> In x rows.
Proof.
  unfold page. intros H.
  rewrite <- (firstn_skipn (Z.to_nat offset) rows). apply in_or_app. right.
  rewrite <- (firstn_skipn (Z.to_nat limit) (skipn (Z.to_nat offset) rows)).
  apply in_or_app. now left.
Qed.

Lemma page_size {A : Type} (offset limit : Z) (rows : list A) :
  0 <= offset -> 0 <= limit ->
  Z.of_nat (List.length (page offset limit rows))
  = Z.min limit (Z.max 0 (Z.of_nat (List.length rows) - offset)).
Proof.
  intros Ho Hl. unfold page. rewrite length_firstn, length_skipn. lia.
Qed.

Lemma page_all {A : Type} (limit : Z) (rows : list A) :
  Z.of_nat (List.length rows) <= limit -> page 0 limit rows = rows.
Proof.
  intros H. unfold page. simpl. apply firstn_all2. lia.
Qed.

Lemma firstn_plus {A : Type} (a b : nat) (l : list A) :
  firstn (a + b) l = firstn a l ++ firstn b (skipn a l).
Proof.
  revert l. induction a as [|a IH]; intros l; [reflexivity|].
  destruct l as [|x l]; simpl.
  - now rewrite firstn_nil.
  - now rewrite IH.
Qed.

Lemma page_concat {A : Type} (offset limit limit' : Z) (rows : list A) :
  0 <= offset -> 0 <= limit -> 0 <= limit' ->
  page offset (limit + limit') rows
  = page offset limit rows ++ page (offset + limit) limit' rows.
Proof.
  intros Ho Hl Hl'. unfold page.
  rewrite !Z2Nat.inj_add by assumption.
  rewrite firstn_plus, skipn_skipn.
  now rewrite (Nat.add_comm (Z.to_nat limit) (Z.to_nat offset)).
Qed.

Section SortedPages.
Context {A : Type}.
Variable R : A -> A -> Prop.

Lemma Sorted_skipn (n : nat) (l : list A) : Sorted R l -> Sorted R (skipn n l).
Proof.
  revert l. induction n as [|n IH]; intros l Hs; [exact Hs|].
  destruct l as [|x l]; [exact Hs|]. simpl. apply IH. now inversion Hs.
Qed.

Lemma Sorted_firstn (n : nat) (l : list A) : Sorted R l -> Sorted R (firstn n l).
Proof.
  revert l. induction n as [|n IH]; intros l Hs; [constructor|].
  destruct l as [|x l]; [constructor|]. simpl.
  inversion Hs as [|y l' Hs' Hhd]; subst.
  constructor; [now apply IH|].
  destruct l as [|z l]; [now destruct n; constructor|].
  destruct n; simpl; constructor. now inversion Hhd.
Qed.

Lemma Sorted_page (offset limit : Z) (l : list A) :
  Sorted R l -> Sorted R (page offset limit l).
Proof. intros H. unfold page. now apply Sorted_firstn, Sorted_skipn. Qed.
End SortedPages.

Lemma Sorted_impl {A : Type} (R R' : A -> A -> Prop) (l : list A) :
  (forall a b, R a b -> R' a b) -> Sorted R l -> Sorted R' l.
Proof.
  intros H. induction 1 as [|x l Hs IH Hhd]; constructor; [exact IH|].
  destruct Hhd; constructor. now apply H.
Qed.

(* ------------------------------------------------------------------ *)
(** ** The answers of the list endpoints *)

Lemma get_datasets_items (maximum_page_limit limit : Z) (offset : option Z)
    (uri_pattern order_by : option string) (s : Session) :
  0 <= limit <= maximum_page_limit -> 0 <= default 0 offset ->
  sortable dataset_allowed_attrs (default "id" order_by) = true ->
  fst (get_datasets maximum_page_limit limit offset uri_pattern order_by s)
  = Ok (DatasetCollection.mk
          (page (default 0 offset) limit
             (ordered DatasetModel.column (order_of (default "id" order_by))
                (filter (dataset_selected uri_pattern) (datasets s))))
          (Z.of_nat (List.length (datasets s)))).
Proof.
  intros [Hl0 Hl] Ho Hs.
  rewrite (get_datasets_sortable _ _ _ _ _ s Hl Hs). cbv zeta.
  rewrite fetch_row_query by assumption. reflexivity.
Qed.

Lemma get_dataset_events_items (maximum_page_limit limit : Z) (offset : option Z)
    (order_by : option string) (dataset_id : option Z)
    (source_dag_id source_task_id source_run_id : option string)
    (source_map_index : option Z) (s : Session) :
  0 <= limit <= maximum_page_limit -> 0 <= default 0 offset ->
  sortable event_allowed_attrs (default "timestamp" order_by) = true ->
  let matching := filter (event_matches dataset_id source_dag_id source_task_id
                            source_run_id source_map_index) (dataset_events s) in
  fst (get_dataset_events maximum_page_limit limit offset order_by dataset_id
         source_dag_id source_task_id source_run_id source_map_index s)
  = Ok (DatasetEventCollection.mk
          (page (default 0 offset) limit
             (ordered DatasetEvent.column (order_of (default "timestamp" order_by))
                matching))
          (Z.of_nat (List.length matching))).
Proof.
  intros [Hl0 Hl] Ho Hs matching. subst matching.
  rewrite (get_dataset_events_sortable _ _ _ _ _ _ _ _ _ s Hl Hs). cbv zeta.
  rewrite fetch_row_query by assumption. rewrite count_events_matching.
  rewrite (filter_ext _ _ (event_query_matches dataset_id source_dag_id
                             source_task_id source_run_id source_map_index)).
  reflexivity.
Qed.

Lemma ordered_length {Row : Type} (column : string -> Row -> Sql.value)
    (o : option (string * Sql.direction)) (rows : list Row) :
  List.length (ordered column o rows) = List.length rows.
Proof. symmetry. apply Permutation_length, ordered_perm. Qed.

Lemma list_keeps_tables (maximum_page_limit limit : Z) (offset : option Z)
    (uri_pattern order_by : option string) (s : Session) :
  limit <= maximum_page_limit ->
  sortable dataset_allowed_attrs (default "id" order_by) = true ->
  datasets (snd (get_datasets maximum_page_limit limit offset uri_pattern order_by s))
  = datasets s.
Proof.
  intros Hl Hs. now rewrite (get_datasets_sortable _ _ _ _ _ s Hl Hs).
Qed.

Lemma event_list_keeps_tables (maximum_page_limit limit : Z) (offset : option Z)
    (order_by : option string) (dataset_id : option Z)
    (source_dag_id source_task_id source_run_id : option string)
    (source_map_index : option Z) (s : Session) :
  limit <= maximum_page_limit ->
  sortable event_allowed_attrs (default "timestamp" order_by) = true ->
  dataset_events (snd (get_dataset_events maximum_page_limit limit offset order_by
                         dataset_id source_dag_id source_task_id source_run_id
                         source_map_index s))
  = dataset_events s.
Proof.
  intros Hl Hs. now rewrite (get_dataset_events_sortable _ _ _ _ _ _ _ _ _ s Hl Hs).
Qed.

(** X8.  After a successful [delete_dataset], with [uri] and [id] unique
    keys, a [get_datasets] with a limit that passes the check, an offset
    that is not negative and an allowed sort field counts one dataset less
    than the table had, and returns only datasets the table had, none of
    them with the deleted uri. *)
Theorem delete_then_list (u : string) (s : Session) (r : NoContentType * Z)
    (maximum_page_limit limit : Z) (offset : option Z)
    (uri_pattern order_by : option string) :
  uri_unique s -> id_unique s -> fst (delete_dataset u s) = Ok r ->
  0 <= limit <= maximum_page_limit -> 0 <= default 0 offset ->
  sortable dataset_allowed_attrs (default "id" order_by) = true ->
  exists c,
    fst (get_datasets maximum_page_limit limit offset uri_pattern order_by
           (snd (delete_dataset u s))) = Ok c
    /\ DatasetCollection.total_entries c = Z.of_nat (List.length (datasets s)) - 1
    /\ forall x, In x (DatasetCollection.datasets c) ->
                 In x (datasets s) /\ DatasetModel.uri x <> u.
Proof.
  intros Hu Hid Hok Hl Ho Hs.
  destruct (delete_dataset_ok _ _ _ Hok) as (d & _ & Hin & Hd & Hrows).
  rewrite (get_datasets_items _ _ _ _ _ _ Hl Ho Hs). rewrite Hrows.
  eexists. split; [reflexivity|].
  cbn [DatasetCollection.datasets DatasetCollection.total_entries]. split.
  - pose proof (without_length d (datasets s) Hid Hin). lia.
  - intros x Hx. apply page_incl in Hx.
    apply (Permutation_in _ (Permutation_sym (ordered_perm _ _ _))) in Hx.
    apply filter_In in Hx. destruct Hx as [Hx _].
    split; [unfold without in Hx; apply filter_In in Hx; tauto|].
    intros Hxu.
    assert (Hx' : In x (filter (by_uri (DatasetModel.uri d)) (without d (datasets s)))).
    { apply filter_In. split; [exact Hx|]. apply by_uri_true. congruence. }
    unfold without in Hx'. rewrite (lookup_after_delete _ _ Hu Hin) in Hx'.
    contradiction.
Qed.

Lemma delete_then_list_witness :
  exists c,
    fst (get_datasets 100 10 None None None (snd (delete_dataset "ds1" catalog))) = Ok c
    /\ DatasetCollection.total_entries c = 4
    /\ forall x, In x (DatasetCollection.datasets c) ->
                 In x (datasets catalog) /\ DatasetModel.uri x <> "ds1".
Proof.
  assert (Hu : uri_unique catalog).
  { unfold uri_unique; simpl. repeat constructor; simpl; intuition discriminate. }
  assert (Hid : id_unique catalog).
  { unfold id_unique; simpl. repeat constructor; simpl; intuition discriminate. }
  assert (Hl : 0 <= 10 <= 100) by lia.
  assert (Ho : 0 <= default 0 None) by (simpl; lia).
  exact (delete_then_list "ds1" catalog (NoContent, 204) 100 10 None None None
           Hu Hid eq_refl Hl Ho eq_refl).
Defined.

(** X9.  With a limit that passes the check, an offset that is not negative
    and an allowed sort field, the number of events that
    [get_dataset_events] returns is the smaller of [limit] and what
    [total_entries] leaves after the offset.  [get_datasets] returns at most
    that many datasets, and exactly that many when [uri_pattern] is left
    out or empty. *)
Theorem page_sizes (maximum_page_limit limit : Z) (offset : option Z) (s : Session) :
  0 <= limit <= maximum_page_limit -> 0 <= default 0 offset ->
  (forall order_by dataset_id source_dag_id source_task_id source_run_id
          source_map_index,
     sortable event_allowed_attrs (default "timestamp" order_by) = true ->
     exists c,
       fst (get_dataset_events maximum_page_limit limit offset order_by dataset_id
              source_dag_id source_task_id source_run_id source_map_index s) = Ok c
       /\ Z.of_nat (List.length (DatasetEventCollection.dataset_events c))
          = Z.min limit
              (Z.max 0 (DatasetEventCollection.total_entries c - default 0 offset)))
  /\ (forall uri_pattern order_by,
     sortable dataset_allowed_attrs (default "id" order_by) = true ->
     exists c,
       fst (get_datasets maximum_page_limit limit offset uri_pattern order_by s) = Ok c
       /\ Z.of_nat (List.length (DatasetCollection.datasets c))
          <= Z.min limit
               (Z.max 0 (DatasetCollection.total_entries c - default 0 offset))
       /\ (Py.truthy_str uri_pattern = false ->
           Z.of_nat (List.length (DatasetCollection.datasets c))
           = Z.min limit
               (Z.max 0 (DatasetCollection.total_entries c - default 0 offset)))).
Proof.
  intros Hl Ho. pose proof Hl as [Hl0 _]. split.
  - intros order_by dataset_id source_dag_id source_task_id source_run_id
      source_map_index Hs.
    rewrite (get_dataset_events_items _ _ _ _ _ _ _ _ _ s Hl Ho Hs). cbv zeta.
    eexists. split; [reflexivity|].
    cbn [DatasetEventCollection.dataset_events DatasetEventCollection.total_entries].
    rewrite page_size by assumption. now rewrite ordered_length.
  - intros uri_pattern order_by Hs.
    rewrite (get_datasets_items _ _ _ _ _ s Hl Ho Hs).
    eexists. split; [reflexivity|].
    cbn [DatasetCollection.datasets DatasetCollection.total_entries].
    rewrite page_size by assumption. rewrite ordered_length. split.
    + pose proof (filter_length_le (dataset_selected uri_pattern) (datasets s)). lia.
    + intros Hp. unfold dataset_selected, dataset_query. rewrite Hp. simpl.
      replace (filter _ (datasets s)) with (datasets s); [reflexivity|].
      symmetry. apply forallb_filter_id. apply forallb_forall. reflexivity.
Qed.

Lemma page_sizes_witness :
  (exists c,
     fst (get_dataset_events 100 2 (Some 2) None None None None None None catalog) = Ok c
     /\ Z.of_nat (List.length (DatasetEventCollection.dataset_events c))
        = Z.min 2 (Z.max 0 (DatasetEventCollection.total_entries c - 2)))
  /\ (exists c,
     fst (get_datasets 100 2 (Some 2) (Some "ds") None catalog) = Ok c
     /\ Z.of_nat (List.length (DatasetCollection.datasets c))
        <= Z.min 2 (Z.max 0 (DatasetCollection.total_entries c - 2))).
Proof.
  assert (Hl : 0 <= 2 <= 100) by lia.
  assert (Ho : 0 <= default 0 (Some 2)) by (simpl; lia).
  destruct (page_sizes 100 2 (Some 2) catalog Hl Ho) as [He Hd]. split.
  - exact (He None None None None None None eq_refl).
  - destruct (Hd (Some "ds") None eq_refl) as (c & H1 & H2 & _).
    exists c. split; assumption.
Defined.

(* ------------------------------------------------------------------ *)
(** ** Rows without ties have one order *)

Lemma string_compare_trans (a b c : string) :
  String.compare a b <> Gt -> String.compare b c <> Gt -> String.compare a c <> Gt.
Proof.
  revert b c. induction a as [|x a IH]; intros [|y b] [|z c]; simpl; try easy.
  unfold Ascii.compare.
  destruct (N.compare_spec (N_of_ascii x) (N_of_ascii y)) as [E1|L1|G1];
    destruct (N.compare_spec (N_of_ascii y) (N_of_ascii z)) as [E2|L2|G2];
    destruct (N.compare_spec (N_of_ascii x) (N_of_ascii z)) as [E3|L3|G3];
    try easy; try lia.
  apply IH.
Qed.

Lemma string_leb_trans (a b c : string) :
  String.leb a b = true -> String.leb b c = true -> String.leb a c = true.
Proof.
  unfold String.leb. intros H1 H2.
  pose proof (string_compare_trans a b c) as H.
  destruct (String.compare a b); destruct (String.compare b c);
    destruct (String.compare a c); try easy; exfalso; apply H; easy.
Qed.

Lemma value_leb_trans (a b c : Sql.value) :
  Sql.value_leb a b = true -> Sql.value_leb b c = true -> Sql.value_leb a c = true.
Proof.
  destruct a as [|x|x], b as [|y|y], c as [|z|z]; simpl; try easy.
  - rewrite !Z.leb_le. lia.
  - apply string_leb_trans.
Qed.

Lemma value_leb_antisym (a b : Sql.value) :
  Sql.value_leb a b = true -> Sql.value_leb b a = true -> a = b.
Proof.
  destruct a as [|x|x], b as [|y|y]; simpl; try easy.
  - rewrite !Z.leb_le. intros. f_equal. lia.
  - intros H1 H2. f_equal. now apply String.leb_antisym.
Qed.

Lemma row_leb_trans {A : Type} (key : A -> Sql.value) (d : Sql.direction) (a b c : A) :
  Sql.row_leb key d a b = true -> Sql.row_leb key d b c = true ->
  Sql.row_leb key d a c = true.
Proof.
  destruct d; simpl; intros H1 H2.
  - exact (value_leb_trans _ _ _ H1 H2).
  - exact (value_leb_trans _ _ _ H2 H1).
Qed.

Lemma row_leb_same_key {A : Type} (key : A -> Sql.value) (d : Sql.direction) (a b : A) :
  Sql.row_leb key d a b = true -> Sql.row_leb key d b a = true -> key a = key b.
Proof.
  destruct d; simpl; intros H1 H2.
  - now apply value_leb_antisym.
  - symmetry. now apply value_leb_antisym.
Qed.

(** Two sorted lists with the same rows are the same list, when rows that
    may come either way round are one row. *)
Lemma sorted_perm_unique {A : Type} (le : A -> A -> bool) :
  total le ->
  (forall a b c, le a b = true -> le b c = true -> le a c = true) ->
  forall l1 l2,
    (forall a b, In a l1 -> In b l1 -> le a b = true -> le b a = true -> a = b) ->
    Sorted (fun a b => le a b = true) l1 ->
    Sorted (fun a b => le a b = true) l2 ->
    Permutation l1 l2 -> l1 = l2.
Proof.
  intros Htot Htrans.
  assert (Tr : Relations_1.Transitive (fun a b => le a b = true)).
  { intros a b c. apply Htrans. }
  induction l1 as [|a l1 IH]; intros l2 Hanti S1 S2 P.
  - apply Permutation_nil in P. now subst.
  - destruct l2 as [|b l2].
    { apply Permutation_sym, Permutation_nil in P. discriminate. }
    pose proof (Sorted_StronglySorted Tr S1) as SS1.
    pose proof (Sorted_StronglySorted Tr S2) as SS2.
    apply StronglySorted_inv in SS1. destruct SS1 as [SS1 F1].
    apply StronglySorted_inv in SS2. destruct SS2 as [SS2 F2].
    assert (Hb : In b (a :: l1)).
    { apply (Permutation_in b (Permutation_sym P)). now left. }
    assert (Ha : In a (b :: l2)).
    { apply (Permutation_in a P). now left. }
    assert (Hab : a = b).
    { destruct Hb as [Hb|Hb]; [exact Hb|].
      destruct Ha as [Ha|Ha]; [now symmetry|].
      apply Hanti; [now left | now right | |].
      - exact (proj1 (Forall_forall _ _) F1 b Hb).
      - exact (proj1 (Forall_forall _ _) F2 a Ha). }
    subst b. f_equal. apply IH.
    + intros x y Hx Hy. apply Hanti; now right.
    + now apply StronglySorted_Sorted.
    + now apply StronglySorted_Sorted.
    + now apply Permutation_cons_inv with a.
Qed.

(** Without ties the database has no choice: any sorted arrangement of the
    rows is the one of [ordered]. *)
Lemma ordered_only_order {Row : Type} (column : string -> Row -> Sql.value)
    (order_by : string) (rows answer : list Row) :
  distinct_sort_keys column order_by rows ->
  Permutation rows answer ->
  Sorted (in_order column order_by) answer ->
  answer = ordered column (order_of order_by) rows.
Proof.
  unfold distinct_sort_keys, in_order, order_of.
  destruct (sort_token order_by) as [field d]. simpl fst. simpl snd.
  intros [Hd _] P S. symmetry.
  apply (sorted_perm_unique (Sql.row_leb (column field) d)).
  - apply row_leb_total.
  - apply row_leb_trans.
  - intros a b Ha Hb H1 H2.
    apply (key_injective (column field) rows); try assumption.
    + exact (Permutation_in a
               (Permutation_sym (ordered_perm column (Some (field, d)) rows)) Ha).
    + exact (Permutation_in b
               (Permutation_sym (ordered_perm column (Some (field, d)) rows)) Hb).
    + now apply (row_leb_same_key _ d).
  - apply ordered_sorted.
  - exact S.
  - apply Permutation_trans with rows; [|exact P].
    apply Permutation_sym, ordered_perm.
Qed.

(** X10.  Consecutive pages join up when the sort column has no ties.  With
    an allowed sort field, limits that pass the check, and matching rows
    whose values in the sort column are pairwise distinct and not strings,
    the matching rows have only one sorted arrangement, and a call with [limit] rows from [offset], followed on
    the session it leaves by a call with [limit'] rows from
    [offset + limit], returns together what one call with [limit + limit']
    rows from [offset] returns; this holds for both list endpoints. *)
Theorem pages_join (maximum_page_limit limit limit' offset : Z) (s : Session) :
  0 <= offset -> 0 <= limit -> 0 <= limit' -> limit + limit' <= maximum_page_limit ->
  (forall uri_pattern order_by,
     sortable dataset_allowed_attrs (default "id" order_by) = true ->
     distinct_sort_keys DatasetModel.column (default "id" order_by)
       (filter (dataset_selected uri_pattern) (datasets s)) ->
     (forall answer,
        Permutation (filter (dataset_selected uri_pattern) (datasets s)) answer ->
        Sorted (in_order DatasetModel.column (default "id" order_by)) answer ->
        answer = ordered DatasetModel.column (order_of (default "id" order_by))
                   (filter (dataset_selected uri_pattern) (datasets s)))
     /\ exists c1 c2 c,
       fst (get_datasets maximum_page_limit limit (Some offset) uri_pattern order_by s)
       = Ok c1
       /\ fst (get_datasets maximum_page_limit limit' (Some (offset + limit))
                 uri_pattern order_by
                 (snd (get_datasets maximum_page_limit limit (Some offset) uri_pattern
                         order_by s))) = Ok c2
       /\ fst (get_datasets maximum_page_limit (limit + limit') (Some offset)
                 uri_pattern order_by s) = Ok c
       /\ DatasetCollection.datasets c
          = DatasetCollection.datasets c1 ++ DatasetCollection.datasets c2)
  /\ (forall order_by dataset_id source_dag_id source_task_id source_run_id
             source_map_index,
     sortable event_allowed_attrs (default "timestamp" order_by) = true ->
     distinct_sort_keys DatasetEvent.column (default "timestamp" order_by)
       (filter (event_matches dataset_id source_dag_id source_task_id source_run_id
                  source_map_index) (dataset_events s)) ->
     (forall answer,
        Permutation (filter (event_matches dataset_id source_dag_id source_task_id
                               source_run_id source_map_index) (dataset_events s))
                    answer ->
        Sorted (in_order DatasetEvent.column (default "timestamp" order_by)) answer ->
        answer = ordered DatasetEvent.column (order_of (default "timestamp" order_by))
                   (filter (event_matches dataset_id source_dag_id source_task_id
                              source_run_id source_map_index) (dataset_events s)))
     /\ exists c1 c2 c,
       fst (get_dataset_events maximum_page_limit limit (Some offset) order_by
              dataset_id source_dag_id source_task_id source_run_id source_map_index s)
       = Ok c1
       /\ fst (get_dataset_events maximum_page_limit limit' (Some (offset + limit))
                 order_by dataset_id source_dag_id source_task_id source_run_id
                 source_map_index
                 (snd (get_dataset_events maximum_page_limit limit (Some offset)
                         order_by dataset_id source_dag_id source_task_id
                         source_run_id source_map_index s))) = Ok c2
       /\ fst (get_dataset_events maximum_page_limit (limit + limit') (Some offset)
                 order_by dataset_id source_dag_id source_task_id source_run_id
                 source_map_index s) = Ok c
       /\ DatasetEventCollection.dataset_events c
          = DatasetEventCollection.dataset_events c1
            ++ DatasetEventCollection.dataset_events c2).
Proof.
  intros Ho Hl Hl' Hmax.
  assert (H1 : 0 <= limit <= maximum_page_limit) by lia.
  assert (H2 : 0 <= limit' <= maximum_page_limit) by lia.
  assert (H3 : 0 <= limit + limit' <= maximum_page_limit) by lia.
  assert (Ho1 : 0 <= default 0 (Some offset)) by (simpl; lia).
  assert (Ho2 : 0 <= default 0 (Some (offset + limit))) by (simpl; lia).
  split.
  - intros uri_pattern order_by Hs Hd. split.
    { intros answer P S. now apply ordered_only_order. }
    rewrite (get_datasets_items _ _ (Some offset) _ _ s H1 Ho1 Hs).
    rewrite (get_datasets_items _ _ (Some (offset + limit)) _ _ _ H2 Ho2 Hs).
    rewrite (get_datasets_items _ _ (Some offset) _ _ s H3 Ho1 Hs).
    rewrite (list_keeps_tables _ _ _ _ _ s (proj2 H1) Hs).
    eexists. eexists. eexists. repeat split.
    cbn [DatasetCollection.datasets default]. now apply page_concat.
  - intros order_by dataset_id source_dag_id source_task_id source_run_id
      source_map_index Hs Hd. split.
    { intros answer P S. now apply ordered_only_order. }
    rewrite (get_dataset_events_items _ _ (Some offset) _ _ _ _ _ _ s H1 Ho1 Hs).
    rewrite (get_dataset_events_items _ _ (Some (offset + limit)) _ _ _ _ _ _ _
               H2 Ho2 Hs).
    rewrite (get_dataset_events_items _ _ (Some offset) _ _ _ _ _ _ s H3 Ho1 Hs).
    cbv zeta. rewrite (event_list_keeps_tables _ _ _ _ _ _ _ _ _ s (proj2 H1) Hs).
    eexists. eexists. eexists. repeat split.
    cbn [DatasetEventCollection.dataset_events default]. now apply page_concat.
Qed.

Lemma pages_join_witness :
  exists c1 c2 c,
    fst (get_datasets 100 2 (Some 1) None None catalog) = Ok c1
    /\ fst (get_datasets 100 2 (Some (1 + 2)) None None
              (snd (get_datasets 100 2 (Some 1) None None catalog))) = Ok c2
    /\ fst (get_datasets 100 (2 + 2) (Some 1) None None catalog) = Ok c
    /\ DatasetCollection.datasets c
       = DatasetCollection.datasets c1 ++ DatasetCollection.datasets c2.
Proof.
  assert (Ho : 0 <= 1) by lia.
  assert (Hl : 0 <= 2) by lia.
  assert (Hmax : 2 + 2 <= 100) by lia.
  assert (Hd : distinct_sort_keys DatasetModel.column (default "id" None)
                 (filter (dataset_selected None) (datasets catalog))).
  { unfold distinct_sort_keys; simpl. split.
    - repeat constructor; simpl; intuition discriminate.
    - intros r t Hin.
      repeat (destruct Hin as [<-|Hin]; [cbv; discriminate|]). contradiction. }
  exact (proj2 (proj1 (pages_join 100 2 2 1 catalog Ho Hl Hl Hmax) None None
                  eq_refl Hd)).
Defined.

(* ------------------------------------------------------------------ *)
(** ** Which rows a list returns, and in which order *)

(** X11.  With a limit that passes the check, an offset that is not
    negative and an allowed sort field, every dataset that [get_datasets]
    returns is a dataset of the table, and its uri matches the ILIKE
    pattern when a pattern was supplied; every event that
    [get_dataset_events] returns is an event of the table that matches all
    the filters. *)
Theorem items_come_from_table (maximum_page_limit limit : Z) (offset : option Z)
    (s : Session) :
  0 <= limit <= maximum_page_limit -> 0 <= default 0 offset ->
  (forall uri_pattern order_by,
     sortable dataset_allowed_attrs (default "id" order_by) = true ->
     exists c,
       fst (get_datasets maximum_page_limit limit offset uri_pattern order_by s) = Ok c
       /\ forall d, In d (DatasetCollection.datasets c) ->
            In d (datasets s)
            /\ forall p, uri_pattern = Some p -> p <> "" ->
                 Sql.ilike (DatasetModel.uri d)
                   (String.append "%" (String.append p "%")) = true)
  /\ (forall order_by dataset_id source_dag_id source_task_id source_run_id
             source_map_index,
     sortable event_allowed_attrs (default "timestamp" order_by) = true ->
     exists c,
       fst (get_dataset_events maximum_page_limit limit offset order_by dataset_id
              source_dag_id source_task_id source_run_id source_map_index s) = Ok c
       /\ forall e, In e (DatasetEventCollection.dataset_events c) ->
            In e (dataset_events s)
            /\ event_matches dataset_id source_dag_id source_task_id source_run_id
                 source_map_index e = true).
Proof.
  intros Hl Ho. split.
  - intros uri_pattern order_by Hs.
    rewrite (get_datasets_items _ _ _ _ _ s Hl Ho Hs).
    eexists. split; [reflexivity|].
    cbn [DatasetCollection.datasets]. intros d Hd. apply page_incl in Hd.
    apply (Permutation_in _ (Permutation_sym (ordered_perm _ _ _))) in Hd.
    apply filter_In in Hd. destruct Hd as [Hin Hsel]. split; [exact Hin|].
    intros p -> Hp. unfold dataset_selected, dataset_query in Hsel. simpl in Hsel.
    apply String.eqb_neq in Hp. rewrite Hp in Hsel. simpl in Hsel.
    unfold satisfies in Hsel. simpl in Hsel. now rewrite andb_true_r in Hsel.
  - intros order_by dataset_id source_dag_id source_task_id source_run_id
      source_map_index Hs.
    rewrite (get_dataset_events_items _ _ _ _ _ _ _ _ _ s Hl Ho Hs). cbv zeta.
    eexists. split; [reflexivity|].
    cbn [DatasetEventCollection.dataset_events]. intros e He. apply page_incl in He.
    apply (Permutation_in _ (Permutation_sym (ordered_perm _ _ _))) in He.
    now apply filter_In in He.
Qed.

Lemma items_come_from_table_witness :
  exists c,
    fst (get_dataset_events 100 10 None None (Some 1) None None None None catalog) = Ok c
    /\ forall e, In e (DatasetEventCollection.dataset_events c) ->
         In e (dataset_events catalog)
         /\ event_matches (Some 1) None None None None e = true.
Proof.
  assert (Hl : 0 <= 10 <= 100) by lia.
  assert (Ho : 0 <= default 0 None) by (simpl; lia).
  exact (proj2 (items_come_from_table 100 10 None catalog Hl Ho)
           None (Some 1) None None None None eq_refl).
Defined.

(** X12.  A first page that is large enough returns everything once: with
    the offset left out or 0, an allowed sort field and a limit that passes
    the check and is not below the number of matching rows, the rows
    returned are a permutation of the matching rows of the table, for both
    list endpoints. *)
Theorem whole_first_page (maximum_page_limit limit : Z) (offset : option Z)
    (s : Session) :
  0 <= limit <= maximum_page_limit -> default 0 offset = 0 ->
  (forall uri_pattern order_by,
     sortable dataset_allowed_attrs (default "id" order_by) = true ->
     Z.of_nat (List.length (filter (dataset_selected uri_pattern) (datasets s)))
     <= limit ->
     exists c,
       fst (get_datasets maximum_page_limit limit offset uri_pattern order_by s) = Ok c
       /\ Permutation (filter (dataset_selected uri_pattern) (datasets s))
                      (DatasetCollection.datasets c))
  /\ (forall order_by dataset_id source_dag_id source_task_id source_run_id
             source_map_index,
     sortable event_allowed_attrs (default "timestamp" order_by) = true ->
     Z.of_nat (List.length
                 (filter (event_matches dataset_id source_dag_id source_task_id
                            source_run_id source_map_index) (dataset_events s)))
     <= limit ->
     exists c,
       fst (get_dataset_events maximum_page_limit limit offset order_by dataset_id
              source_dag_id source_task_id source_run_id source_map_index s) = Ok c
       /\ Permutation
            (filter (event_matches dataset_id source_dag_id source_task_id
                       source_run_id source_map_index) (dataset_events s))
            (DatasetEventCollection.dataset_events c)
       /\ DatasetEventCollection.total_entries c
          = Z.of_nat (List.length (DatasetEventCollection.dataset_events c))).
Proof.
  intros Hl Ho0. assert (Ho : 0 <= default 0 offset) by lia. split.
  - intros uri_pattern order_by Hs Hlen.
    rewrite (get_datasets_items _ _ _ _ _ s Hl Ho Hs).
    eexists. split; [reflexivity|].
    cbn [DatasetCollection.datasets]. rewrite Ho0.
    rewrite page_all by (now rewrite ordered_length). apply ordered_perm.
  - intros order_by dataset_id source_dag_id source_task_id source_run_id
      source_map_index Hs Hlen.
    rewrite (get_dataset_events_items _ _ _ _ _ _ _ _ _ s Hl Ho Hs). cbv zeta.
    eexists. split; [reflexivity|].
    cbn [DatasetEventCollection.dataset_events DatasetEventCollection.total_entries].
    rewrite Ho0. rewrite page_all by (now rewrite ordered_length).
    split; [apply ordered_perm | now rewrite ordered_length].
Qed.

Lemma whole_first_page_witness :
  exists c,
    fst (get_datasets 100 10 None (Some "ds") (Some "-uri") catalog) = Ok c
    /\ Permutation [ds1; ds2; ds3] (DatasetCollection.datasets c).
Proof.
  assert (Hl : 0 <= 10 <= 100) by lia.
  assert (Hlen : Z.of_nat (List.length (filter (dataset_selected (Some "ds"))
                                          (datasets catalog))) <= 10)
    by (vm_compute; discriminate).
  exact (proj1 (whole_first_page 100 10 None catalog Hl eq_refl)
           (Some "ds") (Some "-uri") eq_refl Hlen).
Defined.

Lemma int_key_asc {A : Type} (key : A -> Z) (column : A -> Sql.value) (a b : A) :
  (forall x, column x = Sql.Int (key x)) ->
  Sql.row_leb column Sql.Asc a b = true -> key a <= key b.
Proof. intros H. simpl. rewrite !H. simpl. apply Z.leb_le. Qed.

Lemma int_key_desc {A : Type} (key : A -> Z) (column : A -> Sql.value) (a b : A) :
  (forall x, column x = Sql.Int (key x)) ->
  Sql.row_leb column Sql.Desc a b = true -> key b <= key a.
Proof. intros H. simpl. rewrite !H. simpl. apply Z.leb_le. Qed.

(** X13.  The default orders.  With a limit that passes the check and an
    offset that is not negative, [get_datasets] without [order_by] returns
    its datasets by ascending id and with [order_by="-id"] by descending
    id; [get_dataset_events] without [order_by] returns its events by
    ascending timestamp and with [order_by="-timestamp"] by descending
    timestamp. *)
Theorem default_orders (maximum_page_limit limit : Z) (offset : option Z)
    (s : Session) :
  0 <= limit <= maximum_page_limit -> 0 <= default 0 offset ->
  (forall uri_pattern,
     (exists c, fst (get_datasets maximum_page_limit limit offset uri_pattern None s)
                = Ok c
                /\ Sorted by_id_asc (DatasetCollection.datasets c))
     /\ (exists c, fst (get_datasets maximum_page_limit limit offset uri_pattern
                          (Some "-id") s) = Ok c
                   /\ Sorted by_id_desc (DatasetCollection.datasets c)))
  /\ (forall dataset_id source_dag_id source_task_id source_run_id source_map_index,
     (exists c, fst (get_dataset_events maximum_page_limit limit offset None dataset_id
                       source_dag_id source_task_id source_run_id source_map_index s)
                = Ok c
                /\ Sorted by_timestamp_asc (DatasetEventCollection.dataset_events c))
     /\ (exists c, fst (get_dataset_events maximum_page_limit limit offset
                          (Some "-timestamp") dataset_id source_dag_id source_task_id
                          source_run_id source_map_index s) = Ok c
                   /\ Sorted by_timestamp_desc
                        (DatasetEventCollection.dataset_events c))).
Proof.
  intros Hl Ho. split.
  - intros uri_pattern. split.
    + rewrite (get_datasets_items _ _ _ _ None s Hl Ho eq_refl).
      eexists. split; [reflexivity|]. cbn [DatasetCollection.datasets].
      apply Sorted_page.
      apply (Sorted_impl _ _ _ (fun a b =>
               int_key_asc DatasetModel.id (DatasetModel.column "id") a b
                 (fun x => eq_refl))).
      apply (ordered_sorted DatasetModel.column "id" Sql.Asc).
    + rewrite (get_datasets_items _ _ _ _ (Some "-id") s Hl Ho eq_refl).
      eexists. split; [reflexivity|]. cbn [DatasetCollection.datasets].
      apply Sorted_page.
      apply (Sorted_impl _ _ _ (fun a b =>
               int_key_desc DatasetModel.id (DatasetModel.column "id") a b
                 (fun x => eq_refl))).
      apply (ordered_sorted DatasetModel.column "id" Sql.Desc).
  - intros dataset_id source_dag_id source_task_id source_run_id source_map_index.
    split.
    + rewrite (get_dataset_events_items _ _ _ None _ _ _ _ _ s Hl Ho eq_refl).
      cbv zeta. eexists. split; [reflexivity|].
      cbn [DatasetEventCollection.dataset_events].
      apply Sorted_page.
      apply (Sorted_impl _ _ _ (fun a b =>
               int_key_asc DatasetEvent.timestamp (DatasetEvent.column "timestamp") a b
                 (fun x => eq_refl))).
      apply (ordered_sorted DatasetEvent.column "timestamp" Sql.Asc).
    + rewrite (get_dataset_events_items _ _ _ (Some "-timestamp") _ _ _ _ _ s Hl Ho
                 eq_refl).
      cbv zeta. eexists. split; [reflexivity|].
      cbn [DatasetEventCollection.dataset_events].
      apply Sorted_page.
      apply (Sorted_impl _ _ _ (fun a b =>
               int_key_desc DatasetEvent.timestamp (DatasetEvent.column "timestamp") a b
                 (fun x => eq_refl))).
      apply (ordered_sorted DatasetEvent.column "timestamp" Sql.Desc).
Qed.

Lemma default_orders_witness :
  exists c, fst (get_dataset_events 100 10 None None None None None None None catalog)
            = Ok c
            /\ Sorted by_timestamp_asc (DatasetEventCollection.dataset_events c).
Proof.
  assert (Hl : 0 <= 10 <= 100) by lia.
  assert (Ho : 0 <= default 0 None) by (simpl; lia).
  exact (proj1 (proj2 (default_orders 100 10 None catalog Hl Ho)
                  None None None None None)).
Defined.

(* ------------------------------------------------------------------ *)
(** ** The uri pattern *)

Lemma filter_all {A : Type} (f : A -> bool) (l : list A) :
  (forall x, f x = true) -> filter f l = l.
Proof. intros H. apply forallb_filter_id, forallb_forall. intros x _. apply H. Qed.

(** X14.  An empty [uri_pattern] is no pattern: [get_datasets] with
    [uri_pattern=""] does exactly what it does without [uri_pattern], and
    with a limit that passes the check, an offset that is not negative and
    an allowed sort field that is to return the page of all the datasets of
    the table, ordered. *)
Theorem empty_pattern_lists_all (maximum_page_limit limit : Z) (offset : option Z)
    (order_by : option string) (s : Session) :
  0 <= limit <= maximum_page_limit -> 0 <= default 0 offset ->
  sortable dataset_allowed_attrs (default "id" order_by) = true ->
  get_datasets maximum_page_limit limit offset (Some "") order_by s
  = get_datasets maximum_page_limit limit offset None order_by s
  /\ exists c,
       fst (get_datasets maximum_page_limit limit offset None order_by s) = Ok c
       /\ DatasetCollection.datasets c
          = page (default 0 offset) limit
              (ordered DatasetModel.column (order_of (default "id" order_by))
                 (datasets s)).
Proof.
  intros Hl Ho Hs. split; [reflexivity|].
  rewrite (get_datasets_items _ _ _ _ _ s Hl Ho Hs).
  eexists. split; [reflexivity|]. cbn [DatasetCollection.datasets].
  now rewrite (filter_all (dataset_selected None)).
Qed.

Lemma empty_pattern_lists_all_witness :
  get_datasets 100 10 None (Some "") None catalog
  = get_datasets 100 10 None None None catalog
  /\ exists c,
       fst (get_datasets 100 10 None None None catalog) = Ok c
       /\ DatasetCollection.datasets c = [ds1; ds2; ds3; bucket; abc].
Proof.
  assert (Hl : 0 <= 10 <= 100) by lia.
  assert (Ho : 0 <= default 0 None) by (simpl; lia).
  exact (empty_pattern_lists_all 100 10 None None catalog Hl Ho eq_refl).
Defined.

Lemma fetch_ext {C Row : Type} (holds : C -> Row -> bool)
    (column : string -> Row -> Sql.value) (table : list Row) (q q' : select C)
    (order_by : string) (ls : list loader) (offset limit : Z) :
  (forall r, satisfies holds (whereclause q) r = satisfies holds (whereclause q') r) ->
  fetch holds column table (row_query q order_by ls offset limit)
  = fetch holds column table (row_query q' order_by ls offset limit).
Proof.
  intros H. unfold fetch, row_query. simpl.
  now rewrite (filter_ext _ _ H).
Qed.

Lemma lower_empty (p : string) :
  Sql.lower (list_ascii_of_string p) = [] -> p = "".
Proof. destruct p; [reflexivity | discriminate]. Qed.

Lemma dataset_selected_case (p p' : string) (d : DatasetModel.t) :
  Sql.lower (list_ascii_of_string p) = Sql.lower (list_ascii_of_string p') ->
  dataset_selected (Some p) d = dataset_selected (Some p') d.
Proof.
  intros H. unfold dataset_selected, dataset_query. simpl.
  destruct (String.eqb_spec p "") as [->|Hp].
  - symmetry in H. apply lower_empty in H. now subst p'.
  - destruct (String.eqb_spec p' "") as [->|Hp'].
    + apply lower_empty in H. contradiction.
    + simpl. unfold satisfies. simpl. f_equal. unfold Sql.ilike.
      cbn [list_ascii_of_string]. rewrite !list_ascii_of_append.
      unfold Sql.lower in *. cbn [map]. rewrite !map_app. now rewrite H.
Qed.

(** X15.  The case of the letters of [uri_pattern] does not count: two
    patterns that differ only in the case of their letters make
    [get_datasets] return the same result, whatever the other arguments. *)
Theorem pattern_case_ignored (maximum_page_limit limit : Z) (offset : option Z)
    (p p' : string) (order_by : option string) (s : Session) :
  Sql.lower (list_ascii_of_string p) = Sql.lower (list_ascii_of_string p') ->
  fst (get_datasets maximum_page_limit limit offset (Some p) order_by s)
  = fst (get_datasets maximum_page_limit limit offset (Some p') order_by s).
Proof.
  intros H.
  destruct (Z.le_gt_cases limit maximum_page_limit) as [Hl|Hl].
  - destruct (sortable dataset_allowed_attrs (default "id" order_by)) eqn:Hs.
    + rewrite !(get_datasets_sortable _ _ _ _ _ s Hl Hs). cbv zeta. simpl fst.
      rewrite (fetch_ext _ _ _ (dataset_query (Some p)) (dataset_query (Some p')));
        [reflexivity|].
      intros r. now apply dataset_selected_case.
    + now rewrite !(get_datasets_unsortable _ _ _ _ _ s Hl Hs).
  - unfold get_datasets, format_parameters, bind, lift, check_limit.
    destruct (Z.ltb_spec maximum_page_limit limit); [reflexivity | lia].
Qed.

Lemma pattern_case_ignored_witness :
  fst (get_datasets 100 10 None (Some "BUCKET") None catalog)
  = fst (get_datasets 100 10 None (Some "bucket") None catalog).
Proof.
  apply (pattern_case_ignored 100 10 None "BUCKET" "bucket" None catalog).
  reflexivity.
Defined.

(* ------------------------------------------------------------------ *)
(** ** The error of a missing dataset *)

Lemma occurs_in_append (a u b : string) :
  occurs_in (list_ascii_of_string u)
    (list_ascii_of_string (String.append a (String.append u b))) = true.
Proof.
  apply occurs_in_spec.
  exists (list_ascii_of_string a), (list_ascii_of_string b).
  now rewrite !list_ascii_of_append.
Qed.

(** X16.  A [NotFound] raised by [get_dataset] or by [delete_dataset] has
    the title "Dataset not found" and a detail that contains the requested
    uri. *)
Theorem not_found_names_uri (u : string) (s : Session) (title detail : string) :
  fst (get_dataset u s) = Raise (NotFound title detail)
  \/ fst (delete_dataset u s) = Raise (NotFound title detail) ->
  title = "Dataset not found"
  /\ occurs_in (list_ascii_of_string u) (list_ascii_of_string detail) = true.
Proof.
  intros H.
  assert (Hnf : NotFound title detail = not_found u).
  { destruct H as [H|H].
    - rewrite get_dataset_unfold in H. cbv zeta in H.
      destruct (hd_error _); simpl in H; [discriminate | congruence].
    - rewrite delete_dataset_unfold in H. cbv zeta in H.
      destruct (hd_error _) as [d|]; simpl in H; [|congruence].
      destruct (Py.truthy_list _ || Py.truthy_list _)%bool; discriminate. }
  unfold not_found in Hnf. injection Hnf as -> ->. split; [reflexivity|].
  exact (occurs_in_append "The Dataset with uri: `" u "` was not found").
Qed.

Lemma not_found_names_uri_witness :
  "Dataset not found" = "Dataset not found"
  /\ occurs_in (list_ascii_of_string "ds9")
       (list_ascii_of_string "The Dataset with uri: `ds9` was not found") = true.
Proof.
  apply (not_found_names_uri "ds9" catalog "Dataset not found"
           "The Dataset with uri: `ds9` was not found").
  left. reflexivity.
Defined.

(* ------------------------------------------------------------------ *)
(** ** Filters only narrow *)

(** X17.  With a limit that passes the check, an offset that is not
    negative and an allowed sort field, [get_dataset_events] without any
    filter counts every event of the table, and with filters it never
    counts more. *)
Theorem event_filters_narrow (maximum_page_limit limit : Z) (offset : option Z)
    (order_by : option string) (dataset_id : option Z)
    (source_dag_id source_task_id source_run_id : option string)
    (source_map_index : option Z) (s : Session) :
  0 <= limit <= maximum_page_limit -> 0 <= default 0 offset ->
  sortable event_allowed_attrs (default "timestamp" order_by) = true ->
  exists c c0,
    fst (get_dataset_events maximum_page_limit limit offset order_by dataset_id
           source_dag_id source_task_id source_run_id source_map_index s) = Ok c
    /\ fst (get_dataset_events maximum_page_limit limit offset order_by None None None
              None None s) = Ok c0
    /\ DatasetEventCollection.total_entries c0
       = Z.of_nat (List.length (dataset_events s))
    /\ DatasetEventCollection.total_entries c
       <= DatasetEventCollection.total_entries c0.
Proof.
  intros Hl Ho Hs.
  rewrite !(get_dataset_events_items _ _ _ _ _ _ _ _ _ s Hl Ho Hs). cbv zeta.
  eexists. eexists. split; [reflexivity|]. split; [reflexivity|].
  cbn [DatasetEventCollection.total_entries].
  rewrite (filter_all (event_matches None None None None None)) by reflexivity.
  split; [reflexivity|].
  pose proof (filter_length_le
                (event_matches dataset_id source_dag_id source_task_id source_run_id
                   source_map_index) (dataset_events s)). lia.
Qed.

Lemma event_filters_narrow_witness :
  exists c c0,
    fst (get_dataset_events 100 10 None None (Some 2) None None None None catalog) = Ok c
    /\ fst (get_dataset_events 100 10 None None None None None None None catalog) = Ok c0
    /\ DatasetEventCollection.total_entries c0 = 3
    /\ DatasetEventCollection.total_entries c
       <= DatasetEventCollection.total_entries c0.
Proof.
  assert (Hl : 0 <= 10 <= 100) by lia.
  assert (Ho : 0 <= default 0 None) by (simpl; lia).
  exact (event_filters_narrow 100 10 None None (Some 2) None None None None catalog
           Hl Ho eq_refl).
Defined.
